(** * PDF region mapper: the region-annotation engine

    A shallow embedding of the annotation engine of the PDF region selector:
    the coordinate transforms (pixelsToPoints, pointsToPixels,
    getCanvasCoordinates, getTopLeftCoordinates), the rectangle-drawing
    handlers of App.jsx (handleMouseDown, handleMouseMove, handleMouseUp, the
    canvas' onMouseLeave, goToPage, handleClearPage, handleDeleteRect) and the
    point-marker handler handleCanvasClick.

    The repository carries three versions of App.jsx, each embedded in a
    module of its own:
      - [RegionApp], the plain rectangle selector (the stand-alone App.jsx):
        the gesture is React state, getCanvasCoordinates has no guard;
      - [DocuSignRegionApp], the DocuSign rectangle selector (the second
        App.jsx that accompanies SETUP.md): the gesture is kept in
        drawingStateRef, getCanvasCoordinates is guarded, saved rectangles
        carry their position and size in points;
      - [SignaturePointApp], the DocuSign signature-point selector (the
        first App.jsx that accompanies SETUP.md): one click places one
        point, getCanvasCoordinates is guarded and moves the vertical
        coordinate up by 10 pixels.

    Numbers.  A JavaScript number is an exact rational or one of the three
    non-finite values +Infinity, -Infinity and NaN.  Arithmetic on finite
    values is exact: the rounding and the overflow of binary64 are outside
    the model, and so is the sign of zero.

    Events.  Every handler is a function from the state it finds to the
    state it leaves; an event carries what the handler reads from outside
    the state: the canvas as [canvasRef.current] holds it at that moment
    ([None] for null) and, for a handler that calls [Date.now()], the
    clock reading returned. *)

From Stdlib Require Import ZArith QArith Qround Qabs Qminmax Bool List Lia Lqa Sorted.
From Stdlib Require String.
Import String.StringSyntax.
Delimit Scope string_scope with string.
Import ListNotations.

Set Implicit Arguments.

(* ------------------------------------------------------------------ *)
(** ** JavaScript numbers *)

Inductive number : Type :=
| Fin (q : Q)
| PosInf
| NegInf
| NaN.

Declare Scope js_scope.
Delimit Scope js_scope with js.
Bind Scope js_scope with number.

Module Num.

Definition of_Z (z : Z) : number := Fin (inject_Z z).

(** Sign of a finite value, as the three-way comparison with 0. *)
Definition sign (q : Q) : comparison := (q ?= 0)%Q.

Definition sub (a b : number) : number :=
  match a, b with
  | NaN, _ | _, NaN => NaN
  | Fin p, Fin q => Fin (p - q)
  | PosInf, PosInf | NegInf, NegInf => NaN
  | PosInf, _ | _, NegInf => PosInf
  | NegInf, _ | _, PosInf => NegInf
  end.

(** An infinity scaled by a finite factor: the factor's sign decides, and
    a zero factor gives NaN. *)
Definition scale_inf (positive : bool) (q : Q) : number :=
  match sign q with
  | Eq => NaN
  | Gt => if positive then PosInf else NegInf
  | Lt => if positive then NegInf else PosInf
  end.

Definition mul (a b : number) : number :=
  match a, b with
  | NaN, _ | _, NaN => NaN
  | Fin p, Fin q => Fin (p * q)
  | PosInf, Fin q | Fin q, PosInf => scale_inf true q
  | NegInf, Fin q | Fin q, NegInf => scale_inf false q
  | PosInf, PosInf | NegInf, NegInf => PosInf
  | PosInf, NegInf | NegInf, PosInf => NegInf
  end.

(** Division; a finite value over zero is an infinity of the dividend's
    sign (the zero counts as +0), and 0/0 is NaN. *)
Definition div (a b : number) : number :=
  match a, b with
  | NaN, _ | _, NaN => NaN
  | Fin p, Fin q =>
      match sign q with
      | Eq => scale_inf true p
      | _ => Fin (p / q)
      end
  | Fin _, (PosInf | NegInf) => Fin 0
  | (PosInf | NegInf), (PosInf | NegInf) => NaN
  | PosInf, Fin q =>
      match sign q with Lt => NegInf | _ => PosInf end
  | NegInf, Fin q =>
      match sign q with Lt => PosInf | _ => NegInf end
  end.

(** [a < b]; every comparison with NaN is false. *)
Definition lt (a b : number) : bool :=
  match a, b with
  | NaN, _ | _, NaN => false
  | Fin p, Fin q => negb (Qle_bool q p)
  | _, NegInf => false
  | NegInf, _ => true
  | PosInf, _ => false
  | _, PosInf => true
  end.

Definition gt (a b : number) : bool := lt b a.

(** [a <= b]. *)
Definition le (a b : number) : bool :=
  match a, b with
  | NaN, _ | _, NaN => false
  | Fin p, Fin q => Qle_bool p q
  | NegInf, _ => true
  | _, PosInf => true
  | _, NegInf => false
  | PosInf, _ => false
  end.

(** [a === b] on numbers. *)
Definition strict_eq (a b : number) : bool :=
  match a, b with
  | Fin p, Fin q => Qeq_bool p q
  | PosInf, PosInf | NegInf, NegInf => true
  | _, _ => false
  end.

(** The global [isFinite]. *)
Definition isFinite (a : number) : bool :=
  match a with
  | Fin _ => true
  | _ => false
  end.

End Num.

Infix "-" := Num.sub : js_scope.
Infix "*" := Num.mul : js_scope.
Infix "/" := Num.div : js_scope.
Infix "<" := Num.lt : js_scope.
Infix ">" := Num.gt : js_scope.
Infix "<=" := Num.le : js_scope.
Infix "===" := Num.strict_eq (at level 70, no associativity) : js_scope.

(** The functions of the [Math] object the engine calls. *)
Module Math.

Definition abs (a : number) : number :=
  match a with
  | Fin q => Fin (Qabs q)
  | PosInf | NegInf => PosInf
  | NaN => NaN
  end.

Definition min (a b : number) : number :=
  match a, b with
  | NaN, _ | _, NaN => NaN
  | _, _ => if (b < a)%js then b else a
  end.

Definition max (a b : number) : number :=
  match a, b with
  | NaN, _ | _, NaN => NaN
  | _, _ => if (a < b)%js then b else a
  end.

(** Nearest integer, halves towards +Infinity: floor (x + 1/2). *)
Definition round (a : number) : number :=
  match a with
  | Fin q => Num.of_Z (Qfloor (q + (1 # 2)))
  | other => other
  end.

End Math.

(* ------------------------------------------------------------------ *)
(** ** DOM values read by the handlers *)

Module Pos.
(** A canvas position [{x, y}]. *)
Record t : Type := mk { x : number; y : number }.
End Pos.

Module DOMRect.
(** The result of [getBoundingClientRect()]. *)
Record t : Type := mk { left : number; top : number; width : number; height : number }.
End DOMRect.

Module Canvas.
(** The overlay canvas: its pixel size and where it is displayed. *)
Record t : Type := mk { width : number; height : number; getBoundingClientRect : DOMRect.t }.
End Canvas.

Module MouseEvent.
Record t : Type := mk { clientX : number; clientY : number }.
End MouseEvent.

(* ------------------------------------------------------------------ *)
(** ** DocuSign unit conversion *)

Definition DOCUSIGN_DPI : number := Num.of_Z 72.
Definition UI_DPI : number := Num.of_Z 96.

(** Convert UI pixels to DocuSign points. *)
Definition pixelsToPoints (pixels : number) : number :=
  if negb (Num.isFinite pixels) || (pixels < Num.of_Z 0)%js then Num.of_Z 0
  else Math.max (Num.of_Z 0) (Math.round ((pixels * DOCUSIGN_DPI) / UI_DPI)%js).

(** Convert DocuSign points to UI pixels for display. *)
Definition pointsToPixels (points : number) : number :=
  if negb (Num.isFinite points) || (points < Num.of_Z 0)%js then Num.of_Z 0
  else Math.max (Num.of_Z 0) (Math.round ((points * UI_DPI) / DOCUSIGN_DPI)%js).

(* ------------------------------------------------------------------ *)
(** ** Values shared by the rectangle selectors *)

(** An object reference is truthy unless it is null. *)
Definition truthy {A : Type} (o : option A) : bool :=
  match o with
  | Some _ => true
  | None => false
  end.

Module Rect.
(** The rectangle being drawn, [{x1, y1, x2, y2}]: start corner and
    current corner. *)
Record t : Type := mk { x1 : number; y1 : number; x2 : number; y2 : number }.
End Rect.

Module Coords.
(** The result of getTopLeftCoordinates. *)
Record t : Type := mk { x : number; y : number; width : number; height : number }.
End Coords.

(** Get top-left corner coordinates (the same text in both rectangle
    selectors). *)
Definition getTopLeftCoordinates (x1 y1 x2 y2 : number) : Coords.t :=
  let minX := Math.min x1 x2 in
  let minY := Math.min y1 y2 in
  let width := Math.abs (x2 - x1)%js in
  let height := Math.abs (y2 - y1)%js in
  {| Coords.x := Math.round minX;
     Coords.y := Math.round minY;
     Coords.width := Math.round width;
     Coords.height := Math.round height |}.

(** The final rectangle as the specification words it, for comparison with
    getTopLeftCoordinates:
    [{x: min(x1,x2), y: min(y1,y2), width: |x2-x1|, height: |y2-y1|}]. *)
Definition spec_final_rectangle (x1 y1 x2 y2 : number) : Coords.t :=
  {| Coords.x := Math.min x1 x2;
     Coords.y := Math.min y1 y2;
     Coords.width := Math.abs (x2 - x1)%js;
     Coords.height := Math.abs (y2 - y1)%js |}.

(* ------------------------------------------------------------------ *)
(** ** The plain rectangle selector

    The gesture lives in React state ([isDrawing], [startPos],
    [currentRect]).  A handler reads the state of the last render and queues
    its updates; every event is handled on the state the previous event left.
    [canvasRef] is the overlay canvas as the event finds it ([None] while the
    ref is null), and [now] is the value [Date.now()] returns during the
    handler. *)
Module RegionApp.

Module Region.
(** A saved rectangle, [{x, y, width, height, pageNum, id}]. *)
Record t : Type := mk {
  x : number; y : number; width : number; height : number;
  pageNum : Z; id : Z }.
End Region.

Record State : Type := mkState {
  currentPage : Z;
  totalPages : Z;
  rectangles : list Region.t;
  currentRect : option Rect.t;
  isDrawing : bool;
  startPos : option Pos.t }.

Definition setCurrentPage (v : Z) (s : State) : State :=
  mkState v (totalPages s) (rectangles s) (currentRect s) (isDrawing s) (startPos s).
Definition setRectangles (f : list Region.t -> list Region.t) (s : State) : State :=
  mkState (currentPage s) (totalPages s) (f (rectangles s)) (currentRect s)
          (isDrawing s) (startPos s).
Definition setCurrentRect (v : option Rect.t) (s : State) : State :=
  mkState (currentPage s) (totalPages s) (rectangles s) v (isDrawing s) (startPos s).
Definition setIsDrawing (v : bool) (s : State) : State :=
  mkState (currentPage s) (totalPages s) (rectangles s) (currentRect s) v (startPos s).
Definition setStartPos (v : option Pos.t) (s : State) : State :=
  mkState (currentPage s) (totalPages s) (rectangles s) (currentRect s) (isDrawing s) v.

(** The state once a document of [numPages] pages is loaded. *)
Definition loaded (numPages : Z) : State :=
  mkState 1 numPages [] None false None.

(** Handle page change. *)
Definition goToPage (pageNum : Z) (s : State) : State :=
  if (1 <=? pageNum)%Z && (pageNum <=? totalPages s)%Z
  then setCurrentRect None (setCurrentPage pageNum s)
  else s.

(** Canvas mouse handlers for drawing rectangles. *)
Definition getCanvasCoordinates (canvasRef : option Canvas.t) (e : MouseEvent.t)
  : option Pos.t :=
  match canvasRef with
  | None => None
  | Some canvas =>
      let rect := Canvas.getBoundingClientRect canvas in
      let scaleX := (Canvas.width canvas / DOMRect.width rect)%js in
      let scaleY := (Canvas.height canvas / DOMRect.height rect)%js in
      Some {| Pos.x := ((MouseEvent.clientX e - DOMRect.left rect) * scaleX)%js;
              Pos.y := ((MouseEvent.clientY e - DOMRect.top rect) * scaleY)%js |}
  end.

Definition handleMouseDown (canvasRef : option Canvas.t) (e : MouseEvent.t)
                           (s : State) : State :=
  match getCanvasCoordinates canvasRef e with
  | None => s
  | Some pos =>
      setCurrentRect (Some (Rect.mk (Pos.x pos) (Pos.y pos) (Pos.x pos) (Pos.y pos)))
        (setStartPos (Some pos) (setIsDrawing true s))
  end.

Definition handleMouseMove (canvasRef : option Canvas.t) (e : MouseEvent.t)
                           (s : State) : State :=
  match isDrawing s, startPos s with
  | true, Some start =>
      match getCanvasCoordinates canvasRef e with
      | None => s
      | Some pos =>
          setCurrentRect
            (Some (Rect.mk (Pos.x start) (Pos.y start) (Pos.x pos) (Pos.y pos))) s
      end
  | _, _ => s
  end.

Definition handleMouseUp (canvasRef : option Canvas.t) (e : MouseEvent.t) (now : Z)
                         (s : State) : State :=
  if negb (isDrawing s) || negb (truthy (startPos s)) then s
  else
    match getCanvasCoordinates canvasRef e, currentRect s with
    | Some _, Some cr =>
        let coords :=
          getTopLeftCoordinates (Rect.x1 cr) (Rect.y1 cr) (Rect.x2 cr) (Rect.y2 cr) in
        (* Only save if rectangle has meaningful size *)
        let s1 :=
          if (Coords.width coords > Num.of_Z 5)%js
             && (Coords.height coords > Num.of_Z 5)%js
          then
            let newRect :=
              Region.mk (Coords.x coords) (Coords.y coords)
                        (Coords.width coords) (Coords.height coords)
                        (currentPage s) now in
            setRectangles (fun prev => prev ++ [newRect]) s
          else s in
        setCurrentRect None (setStartPos None (setIsDrawing false s1))
    | _, _ => s
    end.

(** The canvas' onMouseLeave. *)
Definition handleMouseLeave (s : State) : State :=
  setCurrentRect None (setIsDrawing false s).

(** Delete a rectangle. *)
Definition handleDeleteRect (id : Z) (s : State) : State :=
  setRectangles (filter (fun rect => negb (Region.id rect =? id)%Z)) s.

(** Clear all rectangles on current page. *)
Definition handleClearPage (s : State) : State :=
  setRectangles (filter (fun rect => negb (Region.pageNum rect =? currentPage s)%Z)) s.

(** The rectangles the sidebar lists for a page. *)
Definition listForPage (p : Z) (rects : list Region.t) : list Region.t :=
  filter (fun r => (Region.pageNum r =? p)%Z) rects.

Inductive event : Type :=
| MouseDown (canvasRef : option Canvas.t) (e : MouseEvent.t)
| MouseMove (canvasRef : option Canvas.t) (e : MouseEvent.t)
| MouseUp (canvasRef : option Canvas.t) (e : MouseEvent.t) (now : Z)
| MouseLeave
| GoToPage (pageNum : Z)
| DeleteRect (id : Z)
| ClearPage.

Definition step (s : State) (ev : event) : State :=
  match ev with
  | MouseDown c e => handleMouseDown c e s
  | MouseMove c e => handleMouseMove c e s
  | MouseUp c e now => handleMouseUp c e now s
  | MouseLeave => handleMouseLeave s
  | GoToPage n => goToPage n s
  | DeleteRect i => handleDeleteRect i s
  | ClearPage => handleClearPage s
  end.

Definition run (s : State) (evs : list event) : State := fold_left step evs s.

(** The clock readings a trace consumes, in order. *)
Fixpoint stamps (evs : list event) : list Z :=
  match evs with
  | [] => []
  | MouseUp _ _ now :: rest => now :: stamps rest
  | _ :: rest => stamps rest
  end.

(** No gesture in progress. *)
Definition idle (s : State) : Prop :=
  isDrawing s = false /\ startPos s = None /\ currentRect s = None.

(** The corner a gesture ends at: the position of the last pointer-move
    whose transform succeeded, or the start corner when there is none. *)
Definition endCorner (start : Pos.t) (moves : list (option Canvas.t * MouseEvent.t))
  : Pos.t :=
  fold_left
    (fun last m =>
       match getCanvasCoordinates (fst m) (snd m) with
       | Some pos => pos
       | None => last
       end)
    moves start.

Definition moveEvents (moves : list (option Canvas.t * MouseEvent.t)) : list event :=
  map (fun m => MouseMove (fst m) (snd m)) moves.

End RegionApp.

(* ------------------------------------------------------------------ *)
(** ** The DocuSign rectangle selector

    The gesture lives in the mutable [drawingStateRef]; saved rectangles
    also carry their position and size in DocuSign points.  getBoundingClientRect
    always returns an object and nothing in the body throws, so the [!rect]
    test and the try/catch of getCanvasCoordinates have no case here.  This
    version's goToPage has the text of the plain selector's. *)
Module DocuSignRegionApp.

Module Region.
Record t : Type := mk {
  x : number; y : number; width : number; height : number;
  xPoints : number; yPoints : number; widthPoints : number; heightPoints : number;
  pageNum : Z; id : Z }.
End Region.

(** The object held by [drawingStateRef.current]. *)
Record DrawingState : Type := mkDrawingState {
  isDrawing : bool;
  currentRect : option Rect.t;
  startPos : option Pos.t }.

Record State : Type := mkState {
  currentPage : Z;
  totalPages : Z;
  rectangles : list Region.t;
  drawingStateRef : DrawingState }.

Definition setRectangles (f : list Region.t -> list Region.t) (s : State) : State :=
  mkState (currentPage s) (totalPages s) (f (rectangles s)) (drawingStateRef s).
Definition setDrawingState (d : DrawingState) (s : State) : State :=
  mkState (currentPage s) (totalPages s) (rectangles s) d.

Definition loaded (numPages : Z) : State :=
  mkState 1 numPages [] (mkDrawingState false None None).

(** Canvas mouse handlers for drawing rectangles. *)
Definition getCanvasCoordinates (canvasRef : option Canvas.t) (e : MouseEvent.t)
  : option Pos.t :=
  match canvasRef with
  | None => None
  | Some canvas =>
      let rect := Canvas.getBoundingClientRect canvas in
      if (DOMRect.width rect === Num.of_Z 0)%js || (DOMRect.height rect === Num.of_Z 0)%js
      then None
      else
        let scaleX := (Canvas.width canvas / DOMRect.width rect)%js in
        let scaleY := (Canvas.height canvas / DOMRect.height rect)%js in
        (* Validate scale factors *)
        if negb (Num.isFinite scaleX) || negb (Num.isFinite scaleY) then None
        else
          let x := ((MouseEvent.clientX e - DOMRect.left rect) * scaleX)%js in
          let y := ((MouseEvent.clientY e - DOMRect.top rect) * scaleY)%js in
          (* Validate coordinates *)
          if negb (Num.isFinite x) || negb (Num.isFinite y) then None
          else Some {| Pos.x := x; Pos.y := y |}
  end.

Definition handleMouseDown (canvasRef : option Canvas.t) (e : MouseEvent.t)
                           (s : State) : State :=
  match getCanvasCoordinates canvasRef e with
  | None => s
  | Some pos =>
      setDrawingState
        (mkDrawingState true
           (Some (Rect.mk (Pos.x pos) (Pos.y pos) (Pos.x pos) (Pos.y pos)))
           (Some pos)) s
  end.

Definition handleMouseMove (canvasRef : option Canvas.t) (e : MouseEvent.t)
                           (s : State) : State :=
  let d := drawingStateRef s in
  match isDrawing d, startPos d with
  | true, Some start =>
      match getCanvasCoordinates canvasRef e with
      | None => s
      | Some pos =>
          setDrawingState
            (mkDrawingState (isDrawing d)
               (Some (Rect.mk (Pos.x start) (Pos.y start) (Pos.x pos) (Pos.y pos)))
               (startPos d)) s
      end
  | _, _ => s
  end.

Definition handleMouseUp (canvasRef : option Canvas.t) (e : MouseEvent.t) (now : Z)
                         (s : State) : State :=
  let d := drawingStateRef s in
  if negb (isDrawing d) || negb (truthy (startPos d)) then s
  else
    match getCanvasCoordinates canvasRef e, currentRect d with
    | Some _, Some cr =>
        let coords :=
          getTopLeftCoordinates (Rect.x1 cr) (Rect.y1 cr) (Rect.x2 cr) (Rect.y2 cr) in
        (* Only save if rectangle has meaningful size *)
        let s1 :=
          if (Coords.width coords > Num.of_Z 5)%js
             && (Coords.height coords > Num.of_Z 5)%js
          then
            let newRect :=
              Region.mk (Coords.x coords) (Coords.y coords)
                        (Coords.width coords) (Coords.height coords)
                        (pixelsToPoints (Coords.x coords))
                        (pixelsToPoints (Coords.y coords))
                        (pixelsToPoints (Coords.width coords))
                        (pixelsToPoints (Coords.height coords))
                        (currentPage s) now in
            setRectangles (fun prev => prev ++ [newRect]) s
          else s in
        (* Reset drawing state *)
        setDrawingState (mkDrawingState false None None) s1
    | _, _ => s
    end.

(** The canvas' onMouseLeave. *)
Definition handleMouseLeave (s : State) : State :=
  let d := drawingStateRef s in
  setDrawingState (mkDrawingState false None (startPos d)) s.

(** Delete a rectangle. *)
Definition handleDeleteRect (id : Z) (s : State) : State :=
  setRectangles (filter (fun rect => negb (Region.id rect =? id)%Z)) s.

(** Clear all rectangles on current page. *)
Definition handleClearPage (s : State) : State :=
  setRectangles (filter (fun rect => negb (Region.pageNum rect =? currentPage s)%Z)) s.

Inductive event : Type :=
| MouseDown (canvasRef : option Canvas.t) (e : MouseEvent.t)
| MouseMove (canvasRef : option Canvas.t) (e : MouseEvent.t)
| MouseUp (canvasRef : option Canvas.t) (e : MouseEvent.t) (now : Z)
| MouseLeave
| DeleteRect (id : Z)
| ClearPage.

Definition step (s : State) (ev : event) : State :=
  match ev with
  | MouseDown c e => handleMouseDown c e s
  | MouseMove c e => handleMouseMove c e s
  | MouseUp c e now => handleMouseUp c e now s
  | MouseLeave => handleMouseLeave s
  | DeleteRect i => handleDeleteRect i s
  | ClearPage => handleClearPage s
  end.

Definition run (s : State) (evs : list event) : State := fold_left step evs s.

Fixpoint stamps (evs : list event) : list Z :=
  match evs with
  | [] => []
  | MouseUp _ _ now :: rest => now :: stamps rest
  | _ :: rest => stamps rest
  end.

Definition idle (s : State) : Prop :=
  drawingStateRef s = mkDrawingState false None None.

(** The rectangles the sidebar lists for a page. *)
Definition listForPage (p : Z) (rects : list Region.t) : list Region.t :=
  filter (fun r => (Region.pageNum r =? p)%Z) rects.

End DocuSignRegionApp.

(* ------------------------------------------------------------------ *)
(** ** The DocuSign signature-point selector

    One click places one signature point; there is no drag. *)
Module SignaturePointApp.

Module SignaturePoint.
(** [{x, y, xPoints, yPoints, pageNum, id}]. *)
Record t : Type := mk {
  x : number; y : number; xPoints : number; yPoints : number;
  pageNum : Z; id : Z }.
End SignaturePoint.

Record State : Type := mkState {
  currentPage : Z;
  totalPages : Z;
  signaturePoints : list SignaturePoint.t }.

Definition setCurrentPage (v : Z) (s : State) : State :=
  mkState v (totalPages s) (signaturePoints s).
Definition setSignaturePoints
    (f : list SignaturePoint.t -> list SignaturePoint.t) (s : State) : State :=
  mkState (currentPage s) (totalPages s) (f (signaturePoints s)).

Definition loaded (numPages : Z) : State := mkState 1 numPages [].

(** Handle page change. *)
Definition goToPage (pageNum : Z) (s : State) : State :=
  if (1 <=? pageNum)%Z && (pageNum <=? totalPages s)%Z
  then setCurrentPage pageNum s
  else s.

(** Get canvas coordinates from mouse event. *)
Definition getCanvasCoordinates (canvasRef : option Canvas.t) (e : MouseEvent.t)
  : option Pos.t :=
  match canvasRef with
  | None => None
  | Some canvas =>
      let rect := Canvas.getBoundingClientRect canvas in
      if (DOMRect.width rect === Num.of_Z 0)%js || (DOMRect.height rect === Num.of_Z 0)%js
      then None
      else
        let scaleX := (Canvas.width canvas / DOMRect.width rect)%js in
        let scaleY := (Canvas.height canvas / DOMRect.height rect)%js in
        (* Validate scale factors *)
        if negb (Num.isFinite scaleX) || negb (Num.isFinite scaleY) then None
        else
          let x := ((MouseEvent.clientX e - DOMRect.left rect) * scaleX)%js in
          let y := ((MouseEvent.clientY e - DOMRect.top rect) * scaleY)%js in
          (* Apply offset correction (subtract 10 pixels from Y coordinate only) *)
          let y := Math.max (Num.of_Z 0) (y - Num.of_Z 10)%js in
          (* Validate coordinates *)
          if negb (Num.isFinite x) || negb (Num.isFinite y) then None
          else Some {| Pos.x := x; Pos.y := y |}
  end.

(** Handle click on canvas to place signature point. *)
Definition handleCanvasClick (canvasRef : option Canvas.t) (e : MouseEvent.t) (now : Z)
                             (s : State) : State :=
  match getCanvasCoordinates canvasRef e with
  | None => s
  | Some pos =>
      let signaturePoint :=
        SignaturePoint.mk (Math.round (Pos.x pos)) (Math.round (Pos.y pos))
                          (pixelsToPoints (Pos.x pos)) (pixelsToPoints (Pos.y pos))
                          (currentPage s) now in
      setSignaturePoints (fun prev => prev ++ [signaturePoint]) s
  end.

(** Clear all signature points on current page. *)
Definition handleClearPage (s : State) : State :=
  setSignaturePoints
    (filter (fun point => negb (SignaturePoint.pageNum point =? currentPage s)%Z)) s.

Inductive event : Type :=
| CanvasClick (canvasRef : option Canvas.t) (e : MouseEvent.t) (now : Z)
| GoToPage (pageNum : Z)
| ClearPage.

Definition step (s : State) (ev : event) : State :=
  match ev with
  | CanvasClick c e now => handleCanvasClick c e now s
  | GoToPage n => goToPage n s
  | ClearPage => handleClearPage s
  end.

Definition run (s : State) (evs : list event) : State := fold_left step evs s.

Fixpoint stamps (evs : list event) : list Z :=
  match evs with
  | [] => []
  | CanvasClick _ _ now :: rest => now :: stamps rest
  | _ :: rest => stamps rest
  end.

End SignaturePointApp.

(* ------------------------------------------------------------------ *)
(** ** Concrete inputs used by the examples *)
Module Scenario.

(** A pointer event at client position (x, y). *)
Definition pointerAt (x y : Z) : MouseEvent.t := MouseEvent.mk (Num.of_Z x) (Num.of_Z y).

(** An 800 by 600 canvas displayed at its own size at the viewport origin. *)
Definition canvas800 : Canvas.t :=
  Canvas.mk (Num.of_Z 800) (Num.of_Z 600)
            (DOMRect.mk (Num.of_Z 0) (Num.of_Z 0) (Num.of_Z 800) (Num.of_Z 600)).

(** A 150 by 150 canvas displayed in a 100 by 100 box: scale 1.5. *)
Definition canvas150 : Canvas.t :=
  Canvas.mk (Num.of_Z 150) (Num.of_Z 150)
            (DOMRect.mk (Num.of_Z 0) (Num.of_Z 0) (Num.of_Z 100) (Num.of_Z 100)).

(** An 800 by 600 canvas that has not been laid out: its box is empty. *)
Definition canvasNotLaidOut : Canvas.t :=
  Canvas.mk (Num.of_Z 800) (Num.of_Z 600)
            (DOMRect.mk (Num.of_Z 0) (Num.of_Z 0) (Num.of_Z 0) (Num.of_Z 0)).

End Scenario.

(* ------------------------------------------------------------------ *)
(** ** Navigation controls of the plain rectangle selector

    The keyboard listener and the Prev / Next buttons; each of them calls
    goToPage with the neighbour of the current page. *)
Module Navigation.

Module PDFDocument.
(** The loaded document, as far as the engine reads it. *)
Record t : Type := mk { numPages : Z }.
End PDFDocument.

(** Keyboard navigation: the listener bound to the window's keydown. *)
Definition handleKeyPress (pdfDoc : option PDFDocument.t) (key : String.string)
                          (s : RegionApp.State) : RegionApp.State :=
  if negb (truthy pdfDoc) then s
  else if String.eqb key "ArrowRight"%string || String.eqb key "n"%string
  then RegionApp.goToPage (RegionApp.currentPage s + 1) s
  else if String.eqb key "ArrowLeft"%string || String.eqb key "p"%string
  then RegionApp.goToPage (RegionApp.currentPage s - 1) s
  else s.

(** The Prev button: its onClick and its disabled attribute. *)
Definition onClickPrev (s : RegionApp.State) : RegionApp.State :=
  RegionApp.goToPage (RegionApp.currentPage s - 1) s.
Definition prevDisabled (s : RegionApp.State) : bool :=
  (RegionApp.currentPage s =? 1)%Z.

(** The Next button: its onClick and its disabled attribute. *)
Definition onClickNext (s : RegionApp.State) : RegionApp.State :=
  RegionApp.goToPage (RegionApp.currentPage s + 1) s.
Definition nextDisabled (s : RegionApp.State) : bool :=
  (RegionApp.currentPage s =? RegionApp.totalPages s)%Z.

(** Everything the user can do to the selector: the canvas and sidebar
    events of [RegionApp.event], a key press, a click on Prev or Next. *)
Inductive input : Type :=
| Dom (ev : RegionApp.event)
| KeyDown (pdfDoc : option PDFDocument.t) (key : String.string)
| ClickPrev
| ClickNext.

Definition stepInput (s : RegionApp.State) (i : input) : RegionApp.State :=
  match i with
  | Dom ev => RegionApp.step s ev
  | KeyDown pdfDoc key => handleKeyPress pdfDoc key s
  | ClickPrev => onClickPrev s
  | ClickNext => onClickNext s
  end.

Definition runInputs (s : RegionApp.State) (inputs : list input) : RegionApp.State :=
  fold_left stepInput inputs s.

(** The current page is one of the document's pages. *)
Definition inBounds (s : RegionApp.State) : Prop :=
  (1 <= RegionApp.currentPage s <= RegionApp.totalPages s)%Z.

End Navigation.

(* ------------------------------------------------------------------ *)
(** ** The page sizes PDFViewer reports (its guarded version)

    The part of renderPage that computes what onPageRender receives.  The
    viewport comes from pdf.js: [getViewport scale] stands for
    [page.getViewport({ scale })]. *)
Module PDFViewer.

Module Viewport.
Record t : Type := mk { width : number; height : number }.
End Viewport.

Definition maxWidth : number := Num.of_Z 800.

(** Calculate scale to fit container (max width 800px), max 2x zoom. *)
Definition fitScale (viewportWidth : number) : number :=
  Math.min (maxWidth / viewportWidth)%js (Num.of_Z 2).

(** Set canvas dimensions with validation. *)
Definition canvasDimension (v : number) : number :=
  Math.max (Num.of_Z 1) (Math.round v).

(** The arguments of onPageRender, [(newWidth, newHeight, scale)], once the
    rendering itself has completed, or [None] when renderPage returns on an
    invalid viewport. *)
Definition renderedSize (getViewport : number -> Viewport.t)
  : option (number * number * number) :=
  let viewport := getViewport (Num.of_Z 1) in
  if (Viewport.width viewport === Num.of_Z 0)%js
     || (Viewport.height viewport === Num.of_Z 0)%js
  then None
  else
    let scale := fitScale (Viewport.width viewport) in
    let scaledViewport := getViewport scale in
    if (Viewport.width scaledViewport === Num.of_Z 0)%js
       || (Viewport.height scaledViewport === Num.of_Z 0)%js
    then None
    else Some (canvasDimension (Viewport.width scaledViewport),
               canvasDimension (Viewport.height scaledViewport),
               scale).

End PDFViewer.

(* ------------------------------------------------------------------ *)
(** ** Predicates used by the statements *)

(** A saved rectangle has a positive width and a positive height. *)
Definition positive_size (w h : number) : Prop :=
  (w > Num.of_Z 0)%js = true /\ (h > Num.of_Z 0)%js = true.

(** The identifiers [ids] of a store are in order [R], and in relation [R]
    with every clock reading still to come. *)
Definition ids_ok (R : Z -> Z -> Prop) (future ids : list Z) : Prop :=
  StronglySorted R ids /\ Forall (fun i => Forall (R i) future) ids.

(** A value is an integer, given as a finite number. *)
Definition isInteger (a : number) : Prop := exists z : Z, a = Num.of_Z z.

(** A position with two finite coordinates. *)
Definition finitePos (p : Pos.t) : Prop :=
  Num.isFinite (Pos.x p) = true /\ Num.isFinite (Pos.y p) = true.

(** A gesture of the DocuSign rectangle selector whose recorded positions
    are all finite. *)
Definition finiteGesture (d : DocuSignRegionApp.DrawingState) : Prop :=
  (forall p : Pos.t, DocuSignRegionApp.startPos d = Some p -> finitePos p)
  /\ (forall cr : Rect.t,
        DocuSignRegionApp.currentRect d = Some cr ->
        Num.isFinite (Rect.x1 cr) = true /\ Num.isFinite (Rect.y1 cr) = true
        /\ Num.isFinite (Rect.x2 cr) = true /\ Num.isFinite (Rect.y2 cr) = true).

(** A saved rectangle of the DocuSign rectangle selector made of integers:
    integer position, integer sides of at least 6 pixels, and the point
    fields computed from them. *)
Definition integerRegion (r : DocuSignRegionApp.Region.t) : Prop :=
  exists x y w h : Z,
    DocuSignRegionApp.Region.x r = Num.of_Z x
    /\ DocuSignRegionApp.Region.y r = Num.of_Z y
    /\ DocuSignRegionApp.Region.width r = Num.of_Z w
    /\ DocuSignRegionApp.Region.height r = Num.of_Z h
    /\ (6 <= w)%Z /\ (6 <= h)%Z
    /\ DocuSignRegionApp.Region.xPoints r = pixelsToPoints (Num.of_Z x)
    /\ DocuSignRegionApp.Region.yPoints r = pixelsToPoints (Num.of_Z y)
    /\ DocuSignRegionApp.Region.widthPoints r = pixelsToPoints (Num.of_Z w)
    /\ DocuSignRegionApp.Region.heightPoints r = pixelsToPoints (Num.of_Z h).

(** A signature point made of integers, with its vertical coordinate and
    both point coordinates not negative. *)
Definition integerPoint (p : SignaturePointApp.SignaturePoint.t) : Prop :=
  exists x y xp yp : Z,
    SignaturePointApp.SignaturePoint.x p = Num.of_Z x
    /\ SignaturePointApp.SignaturePoint.y p = Num.of_Z y
    /\ SignaturePointApp.SignaturePoint.xPoints p = Num.of_Z xp
    /\ SignaturePointApp.SignaturePoint.yPoints p = Num.of_Z yp
    /\ (0 <= y)%Z /\ (0 <= xp)%Z /\ (0 <= yp)%Z.

(** A pointer-move or a pointer-up of the plain rectangle selector. *)
Definition moveOrUp (ev : RegionApp.event) : Prop :=
  match ev with
  | RegionApp.MouseMove _ _ | RegionApp.MouseUp _ _ _ => True
  | _ => False
  end.

(** A pointer-move or a pointer-up of the DocuSign rectangle selector. *)
Definition moveOrUp_ds (ev : DocuSignRegionApp.event) : Prop :=
  match ev with
  | DocuSignRegionApp.MouseMove _ _ | DocuSignRegionApp.MouseUp _ _ _ => True
  | _ => False
  end.

(* ------------------------------------------------------------------ *)
(** * Properties *)

(** ** Numbers and rounding *)

Lemma lt_of_Z (a b : Z) : (Num.of_Z a < Num.of_Z b)%js = (a <? b)%Z.
Proof.
  unfold Num.of_Z, Num.lt.
  destruct (Z.ltb_spec a b) as [H | H].
  - destruct (Qle_bool (inject_Z b) (inject_Z a)) eqn:E; [ | reflexivity ].
    apply Qle_bool_iff in E. rewrite <- Zle_Qle in E. lia.
  - destruct (Qle_bool (inject_Z b) (inject_Z a)) eqn:E; [ reflexivity | ].
    rewrite Zle_Qle in H. apply Qle_bool_iff in H. congruence.
Qed.

Lemma max_of_Z (a b : Z) : Math.max (Num.of_Z a) (Num.of_Z b) = Num.of_Z (Z.max a b).
Proof.
  assert (E : Math.max (Num.of_Z a) (Num.of_Z b)
              = if (Num.of_Z a < Num.of_Z b)%js then Num.of_Z b else Num.of_Z a)
    by reflexivity.
  rewrite E, lt_of_Z. destruct (Z.ltb_spec a b); f_equal; lia.
Qed.

(** [Math.round] picks the integer [n] with [n - 1/2 <= q < n + 1/2]. *)
Lemma round_nearest (q : Q) :
  (inject_Z (Qfloor (q + (1 # 2))) - (1 # 2) <= q
   /\ q < inject_Z (Qfloor (q + (1 # 2))) + (1 # 2))%Q.
Proof.
  pose proof (Qfloor_le (q + (1 # 2))) as Hl.
  pose proof (Qlt_floor (q + (1 # 2))) as Hu.
  rewrite inject_Z_plus in Hu. change (inject_Z 1) with 1%Q in Hu.
  split; lra.
Qed.

Lemma round_nonneg (q : Q) : (0 <= q)%Q -> (0 <= Qfloor (q + (1 # 2)))%Z.
Proof.
  intros Hq. change 0%Z with (Qfloor 0). apply Qfloor_resp_le. lra.
Qed.

(** The two conversions on a finite non-negative argument. *)
Lemma pixelsToPoints_fin (q : Q) :
  (0 <= q)%Q ->
  pixelsToPoints (Fin q) = Num.of_Z (Qfloor (q * inject_Z 72 / inject_Z 96 + (1 # 2))).
Proof.
  intros Hq. unfold pixelsToPoints.
  assert (E : (Fin q < Num.of_Z 0)%js = negb (Qle_bool 0 q)) by reflexivity.
  rewrite E. pose proof Hq as Hb. apply Qle_bool_iff in Hb. rewrite Hb.
  cbn [Num.isFinite negb orb].
  assert (E2 : Math.round ((Fin q * DOCUSIGN_DPI) / UI_DPI)%js
               = Num.of_Z (Qfloor (q * inject_Z 72 / inject_Z 96 + (1 # 2))))
    by reflexivity.
  rewrite E2, max_of_Z. f_equal. apply Z.max_r, round_nonneg.
  assert (Hr : q * inject_Z 72 / inject_Z 96 == q * (3 # 4)) by field.
  rewrite Hr. lra.
Qed.

Lemma pointsToPixels_fin (q : Q) :
  (0 <= q)%Q ->
  pointsToPixels (Fin q) = Num.of_Z (Qfloor (q * inject_Z 96 / inject_Z 72 + (1 # 2))).
Proof.
  intros Hq. unfold pointsToPixels.
  assert (E : (Fin q < Num.of_Z 0)%js = negb (Qle_bool 0 q)) by reflexivity.
  rewrite E. pose proof Hq as Hb. apply Qle_bool_iff in Hb. rewrite Hb.
  cbn [Num.isFinite negb orb].
  assert (E2 : Math.round ((Fin q * UI_DPI) / DOCUSIGN_DPI)%js
               = Num.of_Z (Qfloor (q * inject_Z 96 / inject_Z 72 + (1 # 2))))
    by reflexivity.
  rewrite E2, max_of_Z. f_equal. apply Z.max_r, round_nonneg.
  assert (Hr : q * inject_Z 96 / inject_Z 72 == q * (4 # 3)) by field.
  rewrite Hr. lra.
Qed.

Lemma pixelsToPoints_neg (q : Q) : (q < 0)%Q -> pixelsToPoints (Fin q) = Num.of_Z 0.
Proof.
  intros Hq. unfold pixelsToPoints.
  assert (E : (Fin q < Num.of_Z 0)%js = negb (Qle_bool 0 q)) by reflexivity.
  rewrite E. destruct (Qle_bool 0 q) eqn:Hb; [ | reflexivity ].
  apply Qle_bool_iff in Hb. lra.
Qed.

(** ** Unit conversion *)




(** The bound of the round trip is reached: 2 pixels are 2 points (1.5
    rounded up), and 2 points are 3 pixels. *)
Example roundtrip_of_two : pointsToPixels (pixelsToPoints (Fin 2)) = Num.of_Z 3.
Proof. reflexivity. Qed.

(** ** Screen-to-canvas transform *)

Section CanvasCoordinates.

Variables (canvas : Canvas.t) (e : MouseEvent.t).

Let rect := Canvas.getBoundingClientRect canvas.
Let scaleX := (Canvas.width canvas / DOMRect.width rect)%js.
Let scaleY := (Canvas.height canvas / DOMRect.height rect)%js.
Let x := ((MouseEvent.clientX e - DOMRect.left rect) * scaleX)%js.
Let y := ((MouseEvent.clientY e - DOMRect.top rect) * scaleY)%js.

(** The guarded transform of the DocuSign rectangle selector: null exactly
    when the displayed box has a zero side or a scale factor or a scaled
    coordinate is not finite, and the scaled position otherwise. *)
Lemma guarded_getCanvasCoordinates :
  ((((DOMRect.width rect === Num.of_Z 0)%js = true
     \/ (DOMRect.height rect === Num.of_Z 0)%js = true
     \/ Num.isFinite scaleX = false \/ Num.isFinite scaleY = false
     \/ Num.isFinite x = false \/ Num.isFinite y = false)
    /\ DocuSignRegionApp.getCanvasCoordinates (Some canvas) e = None)
   \/
   (((DOMRect.width rect === Num.of_Z 0)%js = false
     /\ (DOMRect.height rect === Num.of_Z 0)%js = false
     /\ Num.isFinite scaleX = true /\ Num.isFinite scaleY = true
     /\ Num.isFinite x = true /\ Num.isFinite y = true)
    /\ DocuSignRegionApp.getCanvasCoordinates (Some canvas) e
       = Some {| Pos.x := x; Pos.y := y |})).
Proof.
  unfold DocuSignRegionApp.getCanvasCoordinates.
  fold rect. fold scaleX scaleY. fold x y.
  destruct (DOMRect.width rect === Num.of_Z 0)%js; [ left; auto | ].
  destruct (DOMRect.height rect === Num.of_Z 0)%js; [ left; auto | ].
  cbn [orb].
  destruct (Num.isFinite scaleX); [ | left; auto 6 ].
  destruct (Num.isFinite scaleY); [ | left; auto 6 ].
  cbn [negb orb].
  destruct (Num.isFinite x); [ | left; auto 8 ].
  destruct (Num.isFinite y); [ | left; auto 8 ].
  right. cbn [negb orb]. auto 8.
Qed.

(** The signature-point selector has the same guards, taken after the
    vertical coordinate is moved up by 10 pixels and clamped at 0. *)
Lemma offset_getCanvasCoordinates :
  let y' := Math.max (Num.of_Z 0) (y - Num.of_Z 10)%js in
  ((((DOMRect.width rect === Num.of_Z 0)%js = true
     \/ (DOMRect.height rect === Num.of_Z 0)%js = true
     \/ Num.isFinite scaleX = false \/ Num.isFinite scaleY = false
     \/ Num.isFinite x = false \/ Num.isFinite y' = false)
    /\ SignaturePointApp.getCanvasCoordinates (Some canvas) e = None)
   \/
   (((DOMRect.width rect === Num.of_Z 0)%js = false
     /\ (DOMRect.height rect === Num.of_Z 0)%js = false
     /\ Num.isFinite scaleX = true /\ Num.isFinite scaleY = true
     /\ Num.isFinite x = true /\ Num.isFinite y' = true)
    /\ SignaturePointApp.getCanvasCoordinates (Some canvas) e
       = Some {| Pos.x := x; Pos.y := y' |})).
Proof.
  intros y'. unfold SignaturePointApp.getCanvasCoordinates.
  fold rect. fold scaleX scaleY. fold x y. fold y'.
  destruct (DOMRect.width rect === Num.of_Z 0)%js; [ left; auto | ].
  destruct (DOMRect.height rect === Num.of_Z 0)%js; [ left; auto | ].
  cbn [orb].
  destruct (Num.isFinite scaleX); [ | left; auto 6 ].
  destruct (Num.isFinite scaleY); [ | left; auto 6 ].
  cbn [negb orb].
  destruct (Num.isFinite x); [ | left; auto 8 ].
  destruct (Num.isFinite y'); [ | left; auto 8 ].
  right. cbn [negb orb]. auto 8.
Qed.

(** The plain selector has no guard: with a canvas it always returns the
    scaled position, finite or not. *)
Lemma plain_getCanvasCoordinates :
  RegionApp.getCanvasCoordinates (Some canvas) e = Some {| Pos.x := x; Pos.y := y |}.
Proof. reflexivity. Qed.

(** C6 (as amended): each selector's getCanvasCoordinates computes the
    scale factors canvas.width / rect.width and canvas.height / rect.height.
    The DocuSign rectangle selector returns null exactly when the displayed
    box has a zero side or a scale factor or a scaled coordinate is not
    finite, and the scaled position otherwise; the signature-point selector
    does the same with the vertical coordinate first moved up by 10 and
    clamped at 0; the plain selector has no guard and always returns the
    scaled position while the canvas exists. *)
Theorem getCanvasCoordinates_by_selector :
  ((((DOMRect.width rect === Num.of_Z 0)%js = true
     \/ (DOMRect.height rect === Num.of_Z 0)%js = true
     \/ Num.isFinite scaleX = false \/ Num.isFinite scaleY = false
     \/ Num.isFinite x = false \/ Num.isFinite y = false)
    /\ DocuSignRegionApp.getCanvasCoordinates (Some canvas) e = None)
   \/
   (((DOMRect.width rect === Num.of_Z 0)%js = false
     /\ (DOMRect.height rect === Num.of_Z 0)%js = false
     /\ Num.isFinite scaleX = true /\ Num.isFinite scaleY = true
     /\ Num.isFinite x = true /\ Num.isFinite y = true)
    /\ DocuSignRegionApp.getCanvasCoordinates (Some canvas) e
       = Some {| Pos.x := x; Pos.y := y |}))
  /\
  (let y' := Math.max (Num.of_Z 0) (y - Num.of_Z 10)%js in
   (((DOMRect.width rect === Num.of_Z 0)%js = true
     \/ (DOMRect.height rect === Num.of_Z 0)%js = true
     \/ Num.isFinite scaleX = false \/ Num.isFinite scaleY = false
     \/ Num.isFinite x = false \/ Num.isFinite y' = false)
    /\ SignaturePointApp.getCanvasCoordinates (Some canvas) e = None)
   \/
   (((DOMRect.width rect === Num.of_Z 0)%js = false
     /\ (DOMRect.height rect === Num.of_Z 0)%js = false
     /\ Num.isFinite scaleX = true /\ Num.isFinite scaleY = true
     /\ Num.isFinite x = true /\ Num.isFinite y' = true)
    /\ SignaturePointApp.getCanvasCoordinates (Some canvas) e
       = Some {| Pos.x := x; Pos.y := y' |}))
  /\
  RegionApp.getCanvasCoordinates (Some canvas) e = Some {| Pos.x := x; Pos.y := y |}.
Proof.
  split; [ exact guarded_getCanvasCoordinates | ].
  split; [ exact offset_getCanvasCoordinates | exact plain_getCanvasCoordinates ].
Qed.

End CanvasCoordinates.

(** C6, counterexample: on a canvas whose displayed box is empty the plain
    selector's transform returns a position (with infinite coordinates), not
    null; and on a laid-out canvas the signature-point selector returns the
    vertical coordinate 90 for a click whose scaled position is (100, 100). *)
Lemma getCanvasCoordinates_not_always_guarded :
  (DOMRect.width (Canvas.getBoundingClientRect Scenario.canvasNotLaidOut) === Num.of_Z 0)%js
  = true
  /\ RegionApp.getCanvasCoordinates (Some Scenario.canvasNotLaidOut) (Scenario.pointerAt 10 10)
     = Some {| Pos.x := PosInf; Pos.y := PosInf |}
  /\ (exists p : Pos.t,
        SignaturePointApp.getCanvasCoordinates (Some Scenario.canvas800)
                                               (Scenario.pointerAt 100 100) = Some p
        /\ (Pos.x p === Num.of_Z 100)%js = true
        /\ (Pos.y p === Num.of_Z 90)%js = true).
Proof.
  split; [ reflexivity | ]. split; [ reflexivity | ].
  eexists. split; [ reflexivity | ]. split; reflexivity.
Qed.

(** ** The drag gesture of the plain rectangle selector *)

Section Gesture.

Import RegionApp.

Lemma run_app (s : State) (evs1 evs2 : list event) :
  run s (evs1 ++ evs2) = run (run s evs1) evs2.
Proof. unfold run. apply fold_left_app. Qed.

Lemma run_cons (s : State) (ev : event) (evs : list event) :
  run s (ev :: evs) = run (step s ev) evs.
Proof. reflexivity. Qed.

Lemma endCorner_cons (last : Pos.t) (m : option Canvas.t * MouseEvent.t)
      (moves : list (option Canvas.t * MouseEvent.t)) :
  endCorner last (m :: moves)
  = endCorner (match getCanvasCoordinates (fst m) (snd m) with
               | Some pos => pos
               | None => last
               end) moves.
Proof. reflexivity. Qed.

(** While a gesture is active the pointer-moves only replace the current
    corner of [currentRect]. *)
Lemma run_moves (start : Pos.t) (moves : list (option Canvas.t * MouseEvent.t)) :
  forall (s : State) (last : Pos.t),
    isDrawing s = true ->
    startPos s = Some start ->
    currentRect s
    = Some (Rect.mk (Pos.x start) (Pos.y start) (Pos.x last) (Pos.y last)) ->
    run s (moveEvents moves)
    = setCurrentRect
        (Some (Rect.mk (Pos.x start) (Pos.y start)
                       (Pos.x (endCorner last moves)) (Pos.y (endCorner last moves)))) s.
Proof.
  induction moves as [ | [c e] moves IH ]; intros s last Hd Hs Hr.
  - cbn. destruct s; cbn in *. subst. reflexivity.
  - cbn [moveEvents map]. rewrite run_cons, endCorner_cons. cbn [fst snd step].
    fold (moveEvents moves).
    unfold handleMouseMove. rewrite Hd, Hs.
    destruct (getCanvasCoordinates c e) as [pos | ].
    + rewrite (IH _ pos); [ | exact Hd | exact Hs | reflexivity ].
      destruct s; reflexivity.
    + apply IH; assumption.
Qed.

(** A pointer-up whose transform succeeds ends the gesture: the rectangle
    of [currentRect], rounded, is saved when both rounded sides exceed 5,
    and the gesture state is reset either way. *)
Lemma handleMouseUp_commits (s : State) (c : option Canvas.t) (e : MouseEvent.t)
      (now : Z) (pos start : Pos.t) (cr : Rect.t) :
  isDrawing s = true ->
  startPos s = Some start ->
  currentRect s = Some cr ->
  getCanvasCoordinates c e = Some pos ->
  let coords := getTopLeftCoordinates (Rect.x1 cr) (Rect.y1 cr) (Rect.x2 cr) (Rect.y2 cr) in
  idle (handleMouseUp c e now s)
  /\ currentPage (handleMouseUp c e now s) = currentPage s
  /\ totalPages (handleMouseUp c e now s) = totalPages s
  /\ rectangles (handleMouseUp c e now s)
     = rectangles s
       ++ (if (Coords.width coords > Num.of_Z 5)%js && (Coords.height coords > Num.of_Z 5)%js
           then [Region.mk (Coords.x coords) (Coords.y coords)
                           (Coords.width coords) (Coords.height coords)
                           (currentPage s) now]
           else []).
Proof.
  intros Hd Hs Hr Hp coords. unfold handleMouseUp, idle.
  rewrite Hd, Hs, Hr, Hp. cbn [negb truthy orb]. fold coords.
  destruct ((Coords.width coords > Num.of_Z 5)%js && (Coords.height coords > Num.of_Z 5)%js);
    cbn; rewrite ?app_nil_r; auto.
Qed.

(** C1 (as amended): a drag gesture -- pointer-down at [p1], any number of
    pointer-moves, pointer-up with a successful transform -- saves the
    rectangle spanned by [p1] and the last position a pointer-move
    recorded, each of x, y, width and height rounded to the nearest integer;
    exactly one Region, tagged with the current page, is appended when both
    rounded sides exceed 5, none otherwise, and the machine is idle afterwards
    in both cases. *)
Theorem drag_commits_rounded_rectangle
        (s : State) (c0 : option Canvas.t) (e0 : MouseEvent.t) (p1 : Pos.t)
        (moves : list (option Canvas.t * MouseEvent.t))
        (cu : option Canvas.t) (eu : MouseEvent.t) (pu : Pos.t) (now : Z) :
  getCanvasCoordinates c0 e0 = Some p1 ->
  getCanvasCoordinates cu eu = Some pu ->
  let s' := run s (MouseDown c0 e0 :: moveEvents moves ++ [MouseUp cu eu now]) in
  let p2 := endCorner p1 moves in
  let coords := getTopLeftCoordinates (Pos.x p1) (Pos.y p1) (Pos.x p2) (Pos.y p2) in
  idle s'
  /\ currentPage s' = currentPage s
  /\ rectangles s'
     = rectangles s
       ++ (if (Coords.width coords > Num.of_Z 5)%js && (Coords.height coords > Num.of_Z 5)%js
           then [Region.mk (Coords.x coords) (Coords.y coords)
                           (Coords.width coords) (Coords.height coords)
                           (currentPage s) now]
           else []).
Proof.
  intros H0 Hu s' p2 coords. subst s'.
  rewrite run_cons, run_app. cbn [step]. unfold handleMouseDown. rewrite H0.
  rewrite (@run_moves p1 moves _ p1); [ | reflexivity | reflexivity | reflexivity ].
  fold p2. cbn [run fold_left step].
  match goal with
  | |- context [handleMouseUp cu eu now ?st] =>
      destruct (@handleMouseUp_commits st cu eu now pu p1
                  (Rect.mk (Pos.x p1) (Pos.y p1) (Pos.x p2) (Pos.y p2))
                  eq_refl eq_refl eq_refl Hu) as (Hi & Hc & _ & Hrs)
  end.
  cbn [Rect.x1 Rect.y1 Rect.x2 Rect.y2] in Hrs. fold coords in Hrs.
  split; [ exact Hi | ]. split; [ exact Hc | exact Hrs ].
Qed.

Lemma drag_commits_rounded_rectangle_witness :
  idle (run (loaded 3)
            [MouseDown (Some Scenario.canvas800) (Scenario.pointerAt 10 10);
             MouseMove (Some Scenario.canvas800) (Scenario.pointerAt 60 60);
             MouseUp (Some Scenario.canvas800) (Scenario.pointerAt 60 60) 1000])
  /\ rectangles
       (run (loaded 3)
            [MouseDown (Some Scenario.canvas800) (Scenario.pointerAt 10 10);
             MouseMove (Some Scenario.canvas800) (Scenario.pointerAt 60 60);
             MouseUp (Some Scenario.canvas800) (Scenario.pointerAt 60 60) 1000])
     = [Region.mk (Num.of_Z 10) (Num.of_Z 10) (Num.of_Z 50) (Num.of_Z 50) 1 1000].
Proof.
  destruct (@drag_commits_rounded_rectangle
              (loaded 3) (Some Scenario.canvas800) (Scenario.pointerAt 10 10) _
              [(Some Scenario.canvas800, Scenario.pointerAt 60 60)]
              (Some Scenario.canvas800) (Scenario.pointerAt 60 60) _ 1000
              eq_refl eq_refl) as (Hi & _ & Hr).
  split; [ exact Hi | exact Hr ].
Defined.

(** C1, counterexample: on a 150-pixel canvas shown 100 wide a drag from
    client (0,0) to client (7,7) spans 10.5 canvas pixels, and the saved
    width is 11, not the |x2 - x1| = 10.5 of the stated rectangle. *)
Lemma drag_commit_is_not_the_exact_rectangle :
  exists (p1 p2 : Pos.t) (r : Region.t),
    getCanvasCoordinates (Some Scenario.canvas150) (Scenario.pointerAt 0 0) = Some p1
    /\ getCanvasCoordinates (Some Scenario.canvas150) (Scenario.pointerAt 7 7) = Some p2
    /\ rectangles
         (run (loaded 3)
              [MouseDown (Some Scenario.canvas150) (Scenario.pointerAt 0 0);
               MouseMove (Some Scenario.canvas150) (Scenario.pointerAt 7 7);
               MouseUp (Some Scenario.canvas150) (Scenario.pointerAt 7 7) 1000])
       = [r]
    /\ Region.width r = Num.of_Z 11
    /\ (Coords.width (spec_final_rectangle (Pos.x p1) (Pos.y p1) (Pos.x p2) (Pos.y p2))
        === Fin (21 # 2))%js = true
    /\ (Region.width r
        === Coords.width (spec_final_rectangle (Pos.x p1) (Pos.y p1) (Pos.x p2) (Pos.y p2)))%js
       = false.
Proof.
  eexists. eexists. eexists.
  split; [ reflexivity | ]. split; [ reflexivity | ]. split; [ reflexivity | ].
  split; [ reflexivity | ]. split; reflexivity.
Qed.

End Gesture.

(** The position of the pointer-up itself is not part of the rectangle: a
    press and a release far apart with no pointer-move in between save
    nothing. *)
Example release_position_is_not_used :
  RegionApp.rectangles
    (RegionApp.run (RegionApp.loaded 3)
       [RegionApp.MouseDown (Some Scenario.canvas800) (Scenario.pointerAt 10 10);
        RegionApp.MouseUp (Some Scenario.canvas800) (Scenario.pointerAt 300 200) 1000])
  = [].
Proof. reflexivity. Qed.

(** ** The minimum size *)

Lemma le_not_gt (a b : number) : (a <= b)%js = true -> (a > b)%js = false.
Proof.
  destruct a as [p | | | ], b as [q | | | ]; cbn; try congruence.
  intros ->. reflexivity.
Qed.

Lemma gt_5_gt_0 (a : number) : (a > Num.of_Z 5)%js = true -> (a > Num.of_Z 0)%js = true.
Proof.
  destruct a as [p | | | ]; cbn; try congruence.
  intros H. apply negb_true_iff in H. apply negb_true_iff.
  destruct (Qle_bool p (inject_Z 0)) eqn:E; [ | reflexivity ].
  apply Qle_bool_iff in E.
  assert (H5 : Qle_bool p (inject_Z 5) = true).
  { apply Qle_bool_iff. apply Qle_trans with (inject_Z 0); [ exact E | ].
    rewrite <- Zle_Qle. lia. }
  congruence.
Qed.

(** Rounding does not lift a side over the threshold: a raw side of at most
    5 is still at most 5 once rounded. *)
Lemma round_le_5 (a : number) :
  (a <= Num.of_Z 5)%js = true -> (Math.round a <= Num.of_Z 5)%js = true.
Proof.
  destruct a as [p | | | ]; try (cbn; congruence).
  unfold Math.round, Num.of_Z, Num.le.
  intros H. apply Qle_bool_iff in H. apply Qle_bool_iff.
  rewrite <- Zle_Qle. change 5%Z with (Qfloor ((5 # 1) + (1 # 2))).
  apply Qfloor_resp_le. change (inject_Z 5) with (5 # 1) in H. lra.
Qed.

Lemma Forall_filter_keep {A : Type} (P : A -> Prop) (f : A -> bool) (l : list A) :
  Forall P l -> Forall P (filter f l).
Proof.
  intros H. apply Forall_forall. intros a Ha. apply filter_In in Ha.
  rewrite Forall_forall in H. apply H, Ha.
Qed.

Section MinimumSize.

Import RegionApp.

Let positive (r : Region.t) : Prop := positive_size (Region.width r) (Region.height r).

Lemma step_keeps_positive (s : State) (ev : event) :
  Forall positive (rectangles s) -> Forall positive (rectangles (step s ev)).
Proof.
  intros H. destruct ev as [c e | c e | c e now | | n | i | ]; cbn [step].
  - unfold handleMouseDown. destruct (getCanvasCoordinates c e); exact H.
  - unfold handleMouseMove.
    destruct (isDrawing s), (startPos s), (getCanvasCoordinates c e); exact H.
  - unfold handleMouseUp.
    destruct (negb (isDrawing s) || negb (truthy (startPos s))); [ exact H | ].
    destruct (getCanvasCoordinates c e); [ | exact H ].
    destruct (currentRect s) as [cr | ]; [ | exact H ].
    set (coords := getTopLeftCoordinates _ _ _ _).
    destruct (Coords.width coords > Num.of_Z 5)%js eqn:Hw; [ | exact H ].
    destruct (Coords.height coords > Num.of_Z 5)%js eqn:Hh; [ | exact H ].
    cbn. apply Forall_app. split; [ exact H | ].
    constructor; [ | constructor ].
    split; cbn; apply gt_5_gt_0; assumption.
  - exact H.
  - unfold goToPage. destruct ((1 <=? n)%Z && (n <=? totalPages s)%Z); exact H.
  - cbn. apply Forall_filter_keep, H.
  - cbn. apply Forall_filter_keep, H.
Qed.

Lemma run_keeps_positive (evs : list event) :
  forall s : State,
    Forall positive (rectangles s) -> Forall positive (rectangles (run s evs)).
Proof.
  induction evs as [ | ev evs IH ]; intros s H; [ exact H | ].
  rewrite run_cons. apply IH, step_keeps_positive, H.
Qed.

End MinimumSize.

Section MinimumSizeDocuSign.

Import DocuSignRegionApp.

Let positive (r : Region.t) : Prop := positive_size (Region.width r) (Region.height r).

Lemma run_cons_ds (s : State) (ev : event) (evs : list event) :
  run s (ev :: evs) = run (step s ev) evs.
Proof. reflexivity. Qed.

Lemma handleMouseUp_commits_ds (s : State) (c : option Canvas.t) (e : MouseEvent.t)
      (now : Z) (pos start : Pos.t) (cr : Rect.t) :
  isDrawing (drawingStateRef s) = true ->
  startPos (drawingStateRef s) = Some start ->
  currentRect (drawingStateRef s) = Some cr ->
  getCanvasCoordinates c e = Some pos ->
  let coords := getTopLeftCoordinates (Rect.x1 cr) (Rect.y1 cr) (Rect.x2 cr) (Rect.y2 cr) in
  idle (handleMouseUp c e now s)
  /\ currentPage (handleMouseUp c e now s) = currentPage s
  /\ totalPages (handleMouseUp c e now s) = totalPages s
  /\ rectangles (handleMouseUp c e now s)
     = rectangles s
       ++ (if (Coords.width coords > Num.of_Z 5)%js && (Coords.height coords > Num.of_Z 5)%js
           then [Region.mk (Coords.x coords) (Coords.y coords)
                           (Coords.width coords) (Coords.height coords)
                           (pixelsToPoints (Coords.x coords))
                           (pixelsToPoints (Coords.y coords))
                           (pixelsToPoints (Coords.width coords))
                           (pixelsToPoints (Coords.height coords))
                           (currentPage s) now]
           else []).
Proof.
  intros Hd Hs Hr Hp coords. unfold handleMouseUp, idle.
  rewrite Hd, Hs, Hr, Hp. cbn [negb truthy orb]. fold coords.
  destruct ((Coords.width coords > Num.of_Z 5)%js && (Coords.height coords > Num.of_Z 5)%js);
    cbn; rewrite ?app_nil_r; auto.
Qed.

Lemma step_keeps_positive_ds (s : State) (ev : event) :
  Forall positive (rectangles s) -> Forall positive (rectangles (step s ev)).
Proof.
  intros H. destruct ev as [c e | c e | c e now | | i | ]; cbn [step].
  - unfold handleMouseDown. destruct (getCanvasCoordinates c e); exact H.
  - unfold handleMouseMove. cbv zeta.
    destruct (isDrawing (drawingStateRef s)), (startPos (drawingStateRef s)),
      (getCanvasCoordinates c e); exact H.
  - unfold handleMouseUp. cbv zeta.
    destruct (negb (isDrawing (drawingStateRef s))
              || negb (truthy (startPos (drawingStateRef s)))); [ exact H | ].
    destruct (getCanvasCoordinates c e); [ | exact H ].
    destruct (currentRect (drawingStateRef s)) as [cr | ]; [ | exact H ].
    set (coords := getTopLeftCoordinates _ _ _ _).
    destruct (Coords.width coords > Num.of_Z 5)%js eqn:Hw; [ | exact H ].
    destruct (Coords.height coords > Num.of_Z 5)%js eqn:Hh; [ | exact H ].
    cbn. apply Forall_app. split; [ exact H | ].
    constructor; [ | constructor ].
    split; cbn; apply gt_5_gt_0; assumption.
  - exact H.
  - cbn. apply Forall_filter_keep, H.
  - cbn. apply Forall_filter_keep, H.
Qed.

Lemma run_keeps_positive_ds (evs : list event) :
  forall s : State,
    Forall positive (rectangles s) -> Forall positive (rectangles (run s evs)).
Proof.
  induction evs as [ | ev evs IH ]; intros s H; [ exact H | ].
  rewrite run_cons_ds. apply IH, step_keeps_positive_ds, H.
Qed.

End MinimumSizeDocuSign.

(** A side at or below the threshold, raw or rounded, fails the size test
    of handleMouseUp. *)
Lemma small_side_fails_test (x1 y1 x2 y2 : number) :
  let coords := getTopLeftCoordinates x1 y1 x2 y2 in
  (Math.abs (x2 - x1) <= Num.of_Z 5)%js = true
  \/ (Math.abs (y2 - y1) <= Num.of_Z 5)%js = true
  \/ (Coords.width coords <= Num.of_Z 5)%js = true
  \/ (Coords.height coords <= Num.of_Z 5)%js = true ->
  (Coords.width coords > Num.of_Z 5)%js && (Coords.height coords > Num.of_Z 5)%js = false.
Proof.
  intros coords H. apply andb_false_iff.
  destruct H as [H | [H | [H | H]]].
  - left. apply le_not_gt. apply round_le_5 in H. exact H.
  - right. apply le_not_gt. apply round_le_5 in H. exact H.
  - left. apply le_not_gt, H.
  - right. apply le_not_gt, H.
Qed.



(** ** Page navigation *)

(** C5: goToPage with a page number outside [1, totalPages] returns the
    state it was given, unchanged in every field; with a page number inside
    the bounds it sets currentPage to that number.  Both hold for the plain
    rectangle selector and for the signature-point selector. *)
Theorem goToPage_bounds :
  (forall (s : RegionApp.State) (n : Z),
      (n < 1 \/ RegionApp.totalPages s < n)%Z -> RegionApp.goToPage n s = s)
  /\ (forall (s : RegionApp.State) (n : Z),
        (1 <= n <= RegionApp.totalPages s)%Z ->
        RegionApp.currentPage (RegionApp.goToPage n s) = n)
  /\ (forall (s : SignaturePointApp.State) (n : Z),
        (n < 1 \/ SignaturePointApp.totalPages s < n)%Z ->
        SignaturePointApp.goToPage n s = s)
  /\ (forall (s : SignaturePointApp.State) (n : Z),
        (1 <= n <= SignaturePointApp.totalPages s)%Z ->
        SignaturePointApp.currentPage (SignaturePointApp.goToPage n s) = n).
Proof.
  split; [ | split; [ | split ] ].
  - intros s n H. unfold RegionApp.goToPage.
    destruct (Z.leb_spec 1 n), (Z.leb_spec n (RegionApp.totalPages s));
      cbn [andb]; try reflexivity; lia.
  - intros s n H. unfold RegionApp.goToPage.
    destruct (Z.leb_spec 1 n), (Z.leb_spec n (RegionApp.totalPages s));
      cbn [andb]; try reflexivity; lia.
  - intros s n H. unfold SignaturePointApp.goToPage.
    destruct (Z.leb_spec 1 n), (Z.leb_spec n (SignaturePointApp.totalPages s));
      cbn [andb]; try reflexivity; lia.
  - intros s n H. unfold SignaturePointApp.goToPage.
    destruct (Z.leb_spec 1 n), (Z.leb_spec n (SignaturePointApp.totalPages s));
      cbn [andb]; try reflexivity; lia.
Qed.

Lemma goToPage_bounds_witness :
  RegionApp.goToPage 0 (RegionApp.loaded 3) = RegionApp.loaded 3
  /\ RegionApp.goToPage 4 (RegionApp.loaded 3) = RegionApp.loaded 3
  /\ RegionApp.currentPage (RegionApp.goToPage 2 (RegionApp.loaded 3)) = 2%Z.
Proof.
  destruct goToPage_bounds as (Hout & Hin & _).
  split; [ apply Hout; left; reflexivity | ].
  split; [ apply Hout; right; reflexivity | ].
  apply Hin. cbn. lia.
Defined.

(** goToPage clears [currentRect] and nothing else of the gesture:
    [isDrawing] and [startPos] keep their values. *)
Lemma goToPage_keeps_drawing_flags (s : RegionApp.State) (n : Z) :
  RegionApp.isDrawing (RegionApp.goToPage n s) = RegionApp.isDrawing s
  /\ RegionApp.startPos (RegionApp.goToPage n s) = RegionApp.startPos s
  /\ RegionApp.rectangles (RegionApp.goToPage n s) = RegionApp.rectangles s.
Proof.
  unfold RegionApp.goToPage.
  destruct ((1 <=? n)%Z && (n <=? RegionApp.totalPages s)%Z); auto.
Qed.

(** C2, the code at the failing input: a drag is in progress on page 1 of 3
    when the page changes to 2.  The machine is not idle after the page
    change (isDrawing is still true and startPos is kept), and the next
    pointer-move and pointer-up save a Region of that gesture, tagged with
    page 2. *)
Theorem page_change_mid_drag_keeps_gesture :
  RegionApp.isDrawing
    (RegionApp.run (RegionApp.loaded 3)
       [RegionApp.MouseDown (Some Scenario.canvas800) (Scenario.pointerAt 10 10);
        RegionApp.MouseMove (Some Scenario.canvas800) (Scenario.pointerAt 60 60);
        RegionApp.GoToPage 2]) = true
  /\ truthy
       (RegionApp.startPos
          (RegionApp.run (RegionApp.loaded 3)
             [RegionApp.MouseDown (Some Scenario.canvas800) (Scenario.pointerAt 10 10);
              RegionApp.MouseMove (Some Scenario.canvas800) (Scenario.pointerAt 60 60);
              RegionApp.GoToPage 2])) = true
  /\ RegionApp.currentPage
       (RegionApp.run (RegionApp.loaded 3)
          [RegionApp.MouseDown (Some Scenario.canvas800) (Scenario.pointerAt 10 10);
           RegionApp.MouseMove (Some Scenario.canvas800) (Scenario.pointerAt 60 60);
           RegionApp.GoToPage 2]) = 2%Z
  /\ RegionApp.rectangles
       (RegionApp.run (RegionApp.loaded 3)
          [RegionApp.MouseDown (Some Scenario.canvas800) (Scenario.pointerAt 10 10);
           RegionApp.MouseMove (Some Scenario.canvas800) (Scenario.pointerAt 60 60);
           RegionApp.GoToPage 2;
           RegionApp.MouseMove (Some Scenario.canvas800) (Scenario.pointerAt 80 90);
           RegionApp.MouseUp (Some Scenario.canvas800) (Scenario.pointerAt 80 90) 1000])
     = [RegionApp.Region.mk (Num.of_Z 10) (Num.of_Z 10) (Num.of_Z 70) (Num.of_Z 80) 2 1000].
Proof. repeat split; reflexivity. Qed.

(** ** Clearing a page *)

Section ClearPage.

Variables (A : Type) (page : A -> Z) (p : Z).

Let cleared (l : list A) : list A := filter (fun r => negb (page r =? p)%Z) l.
Let onPage (q : Z) (l : list A) : list A := filter (fun r => (page r =? q)%Z) l.

Lemma cleared_onPage_same (l : list A) : onPage p (cleared l) = [].
Proof.
  unfold onPage, cleared. induction l as [ | a l IH ]; [ reflexivity | ].
  cbn [filter]. destruct (Z.eqb_spec (page a) p) as [E | E]; cbn [negb filter].
  - exact IH.
  - destruct (Z.eqb_spec (page a) p); [ contradiction | exact IH ].
Qed.

Lemma cleared_onPage_other (q : Z) (l : list A) :
  q <> p -> onPage q (cleared l) = onPage q l.
Proof.
  intros Hq. unfold onPage, cleared. induction l as [ | a l IH ]; [ reflexivity | ].
  cbn [filter]. destruct (Z.eqb_spec (page a) p) as [E | E]; cbn [negb filter].
  - destruct (Z.eqb_spec (page a) q); [ congruence | exact IH ].
  - destruct (Z.eqb_spec (page a) q); [ f_equal | ]; exact IH.
Qed.

Lemma cleared_In (r : A) (l : list A) : In r (cleared l) <-> In r l /\ page r <> p.
Proof.
  unfold cleared. rewrite filter_In.
  destruct (Z.eqb_spec (page r) p); cbn [negb]; intuition congruence.
Qed.

Lemma cleared_app (l1 l2 : list A) : cleared (l1 ++ l2) = cleared l1 ++ cleared l2.
Proof. unfold cleared. apply filter_app. Qed.

Lemma cleared_nothing_on_page (l : list A) :
  Forall (fun r => page r <> p) l -> cleared l = l.
Proof.
  unfold cleared. induction 1 as [ | a l Ha _ IH ]; [ reflexivity | ].
  cbn [filter]. destruct (Z.eqb_spec (page a) p); [ contradiction | ].
  cbn [negb]. f_equal. exact IH.
Qed.

End ClearPage.

(** C9: handleClearPage removes exactly the rectangles of the current page:
    afterwards the current page lists nothing, every other page lists what it
    listed before in the same order, a rectangle is kept if and only if it
    was there and is on another page, the kept rectangles stay in their
    relative order (clearing distributes over concatenation), and no other
    field of the state changes.  In particular two rectangles on page 1
    both remain when the page is cleared while on page 2.  The DocuSign
    rectangle selector's handleClearPage behaves the same. *)
Theorem handleClearPage_current_page_only :
  (forall s : RegionApp.State,
      RegionApp.listForPage (RegionApp.currentPage s)
                            (RegionApp.rectangles (RegionApp.handleClearPage s)) = []
      /\ (forall q : Z, q <> RegionApp.currentPage s ->
            RegionApp.listForPage q (RegionApp.rectangles (RegionApp.handleClearPage s))
            = RegionApp.listForPage q (RegionApp.rectangles s))
      /\ (forall r : RegionApp.Region.t,
            In r (RegionApp.rectangles (RegionApp.handleClearPage s))
            <-> In r (RegionApp.rectangles s)
                /\ RegionApp.Region.pageNum r <> RegionApp.currentPage s)
      /\ (forall l1 l2 : list RegionApp.Region.t,
            RegionApp.rectangles s = l1 ++ l2 ->
            RegionApp.rectangles (RegionApp.handleClearPage s)
            = RegionApp.rectangles
                (RegionApp.handleClearPage (RegionApp.setRectangles (fun _ => l1) s))
              ++ RegionApp.rectangles
                   (RegionApp.handleClearPage (RegionApp.setRectangles (fun _ => l2) s)))
      /\ RegionApp.currentPage (RegionApp.handleClearPage s) = RegionApp.currentPage s
      /\ RegionApp.totalPages (RegionApp.handleClearPage s) = RegionApp.totalPages s
      /\ RegionApp.currentRect (RegionApp.handleClearPage s) = RegionApp.currentRect s
      /\ RegionApp.isDrawing (RegionApp.handleClearPage s) = RegionApp.isDrawing s
      /\ RegionApp.startPos (RegionApp.handleClearPage s) = RegionApp.startPos s)
  /\ (forall (s : RegionApp.State) (r1 r2 : RegionApp.Region.t),
        RegionApp.rectangles s = [r1; r2] ->
        RegionApp.Region.pageNum r1 = 1%Z ->
        RegionApp.Region.pageNum r2 = 1%Z ->
        RegionApp.currentPage s = 2%Z ->
        RegionApp.rectangles (RegionApp.handleClearPage s) = [r1; r2])
  /\ (forall s : DocuSignRegionApp.State,
        DocuSignRegionApp.listForPage
          (DocuSignRegionApp.currentPage s)
          (DocuSignRegionApp.rectangles (DocuSignRegionApp.handleClearPage s)) = []
        /\ (forall q : Z, q <> DocuSignRegionApp.currentPage s ->
              DocuSignRegionApp.listForPage
                q (DocuSignRegionApp.rectangles (DocuSignRegionApp.handleClearPage s))
              = DocuSignRegionApp.listForPage q (DocuSignRegionApp.rectangles s))
        /\ (forall r : DocuSignRegionApp.Region.t,
              In r (DocuSignRegionApp.rectangles (DocuSignRegionApp.handleClearPage s))
              <-> In r (DocuSignRegionApp.rectangles s)
                  /\ DocuSignRegionApp.Region.pageNum r <> DocuSignRegionApp.currentPage s)
        /\ DocuSignRegionApp.currentPage (DocuSignRegionApp.handleClearPage s)
           = DocuSignRegionApp.currentPage s
        /\ DocuSignRegionApp.drawingStateRef (DocuSignRegionApp.handleClearPage s)
           = DocuSignRegionApp.drawingStateRef s).
Proof.
  split; [ | split ].
  - intros s. split; [ apply cleared_onPage_same | ].
    split; [ intros q Hq; apply cleared_onPage_other; exact Hq | ].
    split; [ intros r; apply cleared_In | ].
    split; [ | cbn; auto 6 ].
    intros l1 l2 H. cbn. rewrite H. apply filter_app.
  - intros s r1 r2 Hr H1 H2 Hc. cbn. rewrite Hr.
    apply cleared_nothing_on_page. rewrite Hc.
    repeat constructor; lia.
  - intros s. split; [ apply cleared_onPage_same | ].
    split; [ intros q Hq; apply cleared_onPage_other; exact Hq | ].
    split; [ intros r; apply cleared_In | ]. cbn. auto.
Qed.

Lemma handleClearPage_current_page_only_witness :
  RegionApp.rectangles
    (RegionApp.handleClearPage
       (RegionApp.mkState 2 3
          [RegionApp.Region.mk (Num.of_Z 10) (Num.of_Z 10) (Num.of_Z 70) (Num.of_Z 80) 1 1000;
           RegionApp.Region.mk (Num.of_Z 30) (Num.of_Z 40) (Num.of_Z 20) (Num.of_Z 25) 1 2000]
          None false None))
  = [RegionApp.Region.mk (Num.of_Z 10) (Num.of_Z 10) (Num.of_Z 70) (Num.of_Z 80) 1 1000;
     RegionApp.Region.mk (Num.of_Z 30) (Num.of_Z 40) (Num.of_Z 20) (Num.of_Z 25) 1 2000].
Proof.
  destruct handleClearPage_current_page_only as (_ & H & _).
  apply H; reflexivity.
Defined.

(** ** A pointer-up without a position *)

(** C10: when getCanvasCoordinates returns null on pointer-up, handleMouseUp
    returns the state it was given: no rectangle is saved and the gesture
    stays as it was, so a gesture that was active is still active (isDrawing
    true, startPos and currentRect kept) and the machine is not idle.  In the
    DocuSign rectangle selector the transform returns null whenever the
    displayed box of the canvas has a zero side; in the plain selector it
    returns null only while the canvas ref is null, with the same early
    return. *)
Theorem mouseUp_without_position_keeps_gesture :
  (forall (s : DocuSignRegionApp.State) (c : option Canvas.t) (e : MouseEvent.t) (now : Z),
      DocuSignRegionApp.getCanvasCoordinates c e = None ->
      DocuSignRegionApp.handleMouseUp c e now s = s
      /\ (DocuSignRegionApp.isDrawing (DocuSignRegionApp.drawingStateRef s) = true ->
          ~ DocuSignRegionApp.idle (DocuSignRegionApp.handleMouseUp c e now s)))
  /\ (forall (canvas : Canvas.t) (e : MouseEvent.t),
        (DOMRect.width (Canvas.getBoundingClientRect canvas) === Num.of_Z 0)%js = true
        \/ (DOMRect.height (Canvas.getBoundingClientRect canvas) === Num.of_Z 0)%js = true ->
        DocuSignRegionApp.getCanvasCoordinates (Some canvas) e = None)
  /\ (forall (s : RegionApp.State) (c : option Canvas.t) (e : MouseEvent.t) (now : Z),
        RegionApp.getCanvasCoordinates c e = None ->
        RegionApp.handleMouseUp c e now s = s
        /\ (RegionApp.isDrawing s = true ->
            ~ RegionApp.idle (RegionApp.handleMouseUp c e now s))).
Proof.
  split; [ | split ].
  - intros s c e now Hn.
    assert (E : DocuSignRegionApp.handleMouseUp c e now s = s).
    { unfold DocuSignRegionApp.handleMouseUp. cbv zeta. rewrite Hn.
      destruct (negb _ || negb _); reflexivity. }
    split; [ exact E | ].
    intros Hd Hi. rewrite E in Hi. unfold DocuSignRegionApp.idle in Hi.
    rewrite Hi in Hd. discriminate.
  - intros canvas e H. unfold DocuSignRegionApp.getCanvasCoordinates.
    destruct H as [-> | ->]; [ reflexivity | ].
    rewrite orb_true_r. reflexivity.
  - intros s c e now Hn.
    assert (E : RegionApp.handleMouseUp c e now s = s).
    { unfold RegionApp.handleMouseUp. rewrite Hn.
      destruct (negb _ || negb _); reflexivity. }
    split; [ exact E | ].
    intros Hd Hi. rewrite E in Hi. destruct Hi as (Hi & _). congruence.
Qed.

Lemma mouseUp_without_position_keeps_gesture_witness :
  DocuSignRegionApp.handleMouseUp
    (Some Scenario.canvasNotLaidOut) (Scenario.pointerAt 60 60) 1000
    (DocuSignRegionApp.run (DocuSignRegionApp.loaded 3)
       [DocuSignRegionApp.MouseDown (Some Scenario.canvas800) (Scenario.pointerAt 10 10);
        DocuSignRegionApp.MouseMove (Some Scenario.canvas800) (Scenario.pointerAt 60 60)])
  = DocuSignRegionApp.run (DocuSignRegionApp.loaded 3)
      [DocuSignRegionApp.MouseDown (Some Scenario.canvas800) (Scenario.pointerAt 10 10);
       DocuSignRegionApp.MouseMove (Some Scenario.canvas800) (Scenario.pointerAt 60 60)]
  /\ DocuSignRegionApp.isDrawing
       (DocuSignRegionApp.drawingStateRef
          (DocuSignRegionApp.handleMouseUp
             (Some Scenario.canvasNotLaidOut) (Scenario.pointerAt 60 60) 1000
             (DocuSignRegionApp.run (DocuSignRegionApp.loaded 3)
                [DocuSignRegionApp.MouseDown (Some Scenario.canvas800)
                                             (Scenario.pointerAt 10 10);
                 DocuSignRegionApp.MouseMove (Some Scenario.canvas800)
                                             (Scenario.pointerAt 60 60)])))
     = true.
Proof.
  destruct mouseUp_without_position_keeps_gesture as (Hkeep & Hnull & _).
  assert (Hn : DocuSignRegionApp.getCanvasCoordinates
                 (Some Scenario.canvasNotLaidOut) (Scenario.pointerAt 60 60) = None).
  { apply Hnull. left. reflexivity. }
  destruct (Hkeep
              (DocuSignRegionApp.run (DocuSignRegionApp.loaded 3)
                 [DocuSignRegionApp.MouseDown (Some Scenario.canvas800)
                                              (Scenario.pointerAt 10 10);
                  DocuSignRegionApp.MouseMove (Some Scenario.canvas800)
                                              (Scenario.pointerAt 60 60)])
              (Some Scenario.canvasNotLaidOut) (Scenario.pointerAt 60 60) 1000%Z Hn)
    as (E & _).
  split; [ exact E | rewrite E; reflexivity ].
Defined.

(** ** Identifiers *)

Section Identifiers.

Variable R : Z -> Z -> Prop.

Lemma ids_ok_nil (future : list Z) : ids_ok R future [].
Proof. split; constructor. Qed.

Lemma ids_ok_filter {A : Type} (f : A -> Z) (P : A -> bool) (future : list Z) (l : list A) :
  ids_ok R future (map f l) -> ids_ok R future (map f (filter P l)).
Proof.
  induction l as [ | a l IH ]; [ auto | ].
  intros (Hs & Hf). cbn [map] in Hs, Hf.
  apply StronglySorted_inv in Hs. destruct Hs as (Hs & Ha).
  inversion Hf as [ | ? ? Hfa Hfl ]; subst.
  destruct (IH (conj Hs Hfl)) as (IHs & IHf).
  cbn [filter]. destruct (P a); [ | split; assumption ].
  cbn [map]. split; [ | constructor; assumption ].
  constructor; [ exact IHs | ].
  rewrite Forall_forall in *. intros i Hi. apply Ha.
  apply in_map_iff in Hi. destruct Hi as (b & <- & Hb).
  apply filter_In in Hb. apply in_map, Hb.
Qed.

Lemma ids_ok_snoc (t : Z) (future ids : list Z) :
  StronglySorted R (t :: future) ->
  ids_ok R (t :: future) ids -> ids_ok R future (ids ++ [t]).
Proof.
  intros Ht (Hs & Hf). apply StronglySorted_inv in Ht. destruct Ht as (_ & Ht).
  split.
  - clear Ht. induction ids as [ | i ids IH ]; [ repeat constructor | ].
    apply StronglySorted_inv in Hs. destruct Hs as (Hs & Hi).
    inversion Hf as [ | ? ? Hfi Hfl ]; subst.
    cbn [app]. constructor; [ apply IH; assumption | ].
    apply Forall_app. split; [ exact Hi | ].
    constructor; [ | constructor ]. inversion Hfi; assumption.
  - apply Forall_app. split.
    + rewrite Forall_forall in *. intros i Hi.
      specialize (Hf i Hi). inversion Hf; assumption.
    + constructor; [ exact Ht | constructor ].
Qed.

Lemma ids_ok_skip (t : Z) (future ids : list Z) :
  ids_ok R (t :: future) ids -> ids_ok R future ids.
Proof.
  intros (Hs & Hf). split; [ exact Hs | ].
  rewrite Forall_forall in *. intros i Hi.
  specialize (Hf i Hi). inversion Hf; assumption.
Qed.

(** The plain rectangle selector. *)
Lemma run_ids_ok (evs : list RegionApp.event) :
  forall s : RegionApp.State,
    StronglySorted R (RegionApp.stamps evs) ->
    ids_ok R (RegionApp.stamps evs) (map RegionApp.Region.id (RegionApp.rectangles s)) ->
    ids_ok R [] (map RegionApp.Region.id (RegionApp.rectangles (RegionApp.run s evs))).
Proof.
  induction evs as [ | ev evs IH ]; intros s Hst Hok; [ exact Hok | ].
  rewrite run_cons.
  destruct ev as [c e | c e | c e now | | n | i | ]; cbn [RegionApp.stamps] in Hst, Hok;
    cbn [RegionApp.step].
  - apply IH; [ exact Hst | ].
    unfold RegionApp.handleMouseDown.
    destruct (RegionApp.getCanvasCoordinates c e); exact Hok.
  - apply IH; [ exact Hst | ].
    unfold RegionApp.handleMouseMove.
    destruct (RegionApp.isDrawing s), (RegionApp.startPos s),
      (RegionApp.getCanvasCoordinates c e); exact Hok.
  - apply IH; [ apply StronglySorted_inv in Hst; apply Hst | ].
    unfold RegionApp.handleMouseUp.
    destruct (negb (RegionApp.isDrawing s) || negb (truthy (RegionApp.startPos s)));
      [ exact (ids_ok_skip Hok) | ].
    destruct (RegionApp.getCanvasCoordinates c e); [ | exact (ids_ok_skip Hok) ].
    destruct (RegionApp.currentRect s) as [cr | ]; [ | exact (ids_ok_skip Hok) ].
    cbv zeta.
    destruct (_ && _); [ | exact (ids_ok_skip Hok) ].
    cbn. rewrite map_app. cbn [map RegionApp.Region.id].
    apply ids_ok_snoc; assumption.
  - apply IH; [ exact Hst | exact Hok ].
  - apply IH; [ exact Hst | ].
    unfold RegionApp.goToPage.
    destruct ((1 <=? n)%Z && (n <=? RegionApp.totalPages s)%Z); exact Hok.
  - apply IH; [ exact Hst | ]. cbn. apply ids_ok_filter, Hok.
  - apply IH; [ exact Hst | ]. cbn. apply ids_ok_filter, Hok.
Qed.

(** The DocuSign rectangle selector. *)
Lemma run_ids_ok_ds (evs : list DocuSignRegionApp.event) :
  forall s : DocuSignRegionApp.State,
    StronglySorted R (DocuSignRegionApp.stamps evs) ->
    ids_ok R (DocuSignRegionApp.stamps evs)
           (map DocuSignRegionApp.Region.id (DocuSignRegionApp.rectangles s)) ->
    ids_ok R []
           (map DocuSignRegionApp.Region.id
                (DocuSignRegionApp.rectangles (DocuSignRegionApp.run s evs))).
Proof.
  induction evs as [ | ev evs IH ]; intros s Hst Hok; [ exact Hok | ].
  rewrite run_cons_ds.
  destruct ev as [c e | c e | c e now | | i | ]; cbn [DocuSignRegionApp.stamps] in Hst, Hok;
    cbn [DocuSignRegionApp.step].
  - apply IH; [ exact Hst | ].
    unfold DocuSignRegionApp.handleMouseDown.
    destruct (DocuSignRegionApp.getCanvasCoordinates c e); exact Hok.
  - apply IH; [ exact Hst | ].
    unfold DocuSignRegionApp.handleMouseMove. cbv zeta.
    destruct (DocuSignRegionApp.isDrawing (DocuSignRegionApp.drawingStateRef s)),
      (DocuSignRegionApp.startPos (DocuSignRegionApp.drawingStateRef s)),
      (DocuSignRegionApp.getCanvasCoordinates c e); exact Hok.
  - apply IH; [ apply StronglySorted_inv in Hst; apply Hst | ].
    unfold DocuSignRegionApp.handleMouseUp. cbv zeta.
    destruct (negb _ || negb _); [ exact (ids_ok_skip Hok) | ].
    destruct (DocuSignRegionApp.getCanvasCoordinates c e); [ | exact (ids_ok_skip Hok) ].
    destruct (DocuSignRegionApp.currentRect (DocuSignRegionApp.drawingStateRef s))
      as [cr | ]; [ | exact (ids_ok_skip Hok) ].
    destruct (_ && _); [ | exact (ids_ok_skip Hok) ].
    cbn. rewrite map_app. cbn [map DocuSignRegionApp.Region.id].
    apply ids_ok_snoc; assumption.
  - apply IH; [ exact Hst | exact Hok ].
  - apply IH; [ exact Hst | ]. cbn. apply ids_ok_filter, Hok.
  - apply IH; [ exact Hst | ]. cbn. apply ids_ok_filter, Hok.
Qed.

(** The signature-point selector. *)
Lemma run_ids_ok_sp (evs : list SignaturePointApp.event) :
  forall s : SignaturePointApp.State,
    StronglySorted R (SignaturePointApp.stamps evs) ->
    ids_ok R (SignaturePointApp.stamps evs)
           (map SignaturePointApp.SignaturePoint.id (SignaturePointApp.signaturePoints s)) ->
    ids_ok R []
           (map SignaturePointApp.SignaturePoint.id
                (SignaturePointApp.signaturePoints (SignaturePointApp.run s evs))).
Proof.
  induction evs as [ | ev evs IH ]; intros s Hst Hok; [ exact Hok | ].
  change (SignaturePointApp.run s (ev :: evs))
    with (SignaturePointApp.run (SignaturePointApp.step s ev) evs).
  destruct ev as [c e now | n | ]; cbn [SignaturePointApp.stamps] in Hst, Hok;
    cbn [SignaturePointApp.step].
  - apply IH; [ apply StronglySorted_inv in Hst; apply Hst | ].
    unfold SignaturePointApp.handleCanvasClick.
    destruct (SignaturePointApp.getCanvasCoordinates c e); [ | exact (ids_ok_skip Hok) ].
    cbn. rewrite map_app. cbn [map SignaturePointApp.SignaturePoint.id].
    apply ids_ok_snoc; assumption.
  - apply IH; [ exact Hst | ].
    unfold SignaturePointApp.goToPage.
    destruct ((1 <=? n)%Z && (n <=? SignaturePointApp.totalPages s)%Z); exact Hok.
  - apply IH; [ exact Hst | ]. cbn. apply ids_ok_filter, Hok.
Qed.

End Identifiers.

Lemma strictly_sorted_NoDup (l : list Z) : StronglySorted Z.lt l -> NoDup l.
Proof.
  induction 1 as [ | a l _ IH Ha ]; constructor; [ | exact IH ].
  intros Hin. rewrite Forall_forall in Ha. specialize (Ha a Hin). lia.
Qed.

(** C8 (as amended): the id of a saved Region or Point is the clock reading
    taken when it is saved.  In every state reached from a freshly loaded
    document, the ids are in creation order non-decreasing when the clock
    readings of the trace are non-decreasing, and strictly increasing, hence
    pairwise distinct, when the clock readings are strictly increasing.
    This holds in the plain rectangle selector, the DocuSign rectangle
    selector and the signature-point selector. *)
Theorem ids_follow_the_clock :
  (forall (numPages : Z) (evs : list RegionApp.event),
      (StronglySorted Z.le (RegionApp.stamps evs) ->
       StronglySorted Z.le
         (map RegionApp.Region.id
              (RegionApp.rectangles (RegionApp.run (RegionApp.loaded numPages) evs))))
      /\ (StronglySorted Z.lt (RegionApp.stamps evs) ->
          StronglySorted Z.lt
            (map RegionApp.Region.id
                 (RegionApp.rectangles (RegionApp.run (RegionApp.loaded numPages) evs)))
          /\ NoDup
               (map RegionApp.Region.id
                    (RegionApp.rectangles (RegionApp.run (RegionApp.loaded numPages) evs)))))
  /\ (forall (numPages : Z) (evs : list DocuSignRegionApp.event),
        (StronglySorted Z.le (DocuSignRegionApp.stamps evs) ->
         StronglySorted Z.le
           (map DocuSignRegionApp.Region.id
                (DocuSignRegionApp.rectangles
                   (DocuSignRegionApp.run (DocuSignRegionApp.loaded numPages) evs))))
        /\ (StronglySorted Z.lt (DocuSignRegionApp.stamps evs) ->
            StronglySorted Z.lt
              (map DocuSignRegionApp.Region.id
                   (DocuSignRegionApp.rectangles
                      (DocuSignRegionApp.run (DocuSignRegionApp.loaded numPages) evs)))
            /\ NoDup
                 (map DocuSignRegionApp.Region.id
                      (DocuSignRegionApp.rectangles
                         (DocuSignRegionApp.run (DocuSignRegionApp.loaded numPages) evs)))))
  /\ (forall (numPages : Z) (evs : list SignaturePointApp.event),
        (StronglySorted Z.le (SignaturePointApp.stamps evs) ->
         StronglySorted Z.le
           (map SignaturePointApp.SignaturePoint.id
                (SignaturePointApp.signaturePoints
                   (SignaturePointApp.run (SignaturePointApp.loaded numPages) evs))))
        /\ (StronglySorted Z.lt (SignaturePointApp.stamps evs) ->
            StronglySorted Z.lt
              (map SignaturePointApp.SignaturePoint.id
                   (SignaturePointApp.signaturePoints
                      (SignaturePointApp.run (SignaturePointApp.loaded numPages) evs)))
            /\ NoDup
                 (map SignaturePointApp.SignaturePoint.id
                      (SignaturePointApp.signaturePoints
                         (SignaturePointApp.run (SignaturePointApp.loaded numPages) evs))))).
Proof.
  split; [ | split ]; intros numPages evs; split; intros Hst.
  - apply (@run_ids_ok Z.le evs (RegionApp.loaded numPages) Hst), ids_ok_nil.
  - assert (H : StronglySorted Z.lt
                  (map RegionApp.Region.id
                       (RegionApp.rectangles (RegionApp.run (RegionApp.loaded numPages) evs))))
      by (apply (@run_ids_ok Z.lt evs (RegionApp.loaded numPages) Hst), ids_ok_nil).
    split; [ exact H | apply strictly_sorted_NoDup, H ].
  - apply (@run_ids_ok_ds Z.le evs (DocuSignRegionApp.loaded numPages) Hst), ids_ok_nil.
  - assert (H : StronglySorted Z.lt
                  (map DocuSignRegionApp.Region.id
                       (DocuSignRegionApp.rectangles
                          (DocuSignRegionApp.run (DocuSignRegionApp.loaded numPages) evs))))
      by (apply (@run_ids_ok_ds Z.lt evs (DocuSignRegionApp.loaded numPages) Hst), ids_ok_nil).
    split; [ exact H | apply strictly_sorted_NoDup, H ].
  - apply (@run_ids_ok_sp Z.le evs (SignaturePointApp.loaded numPages) Hst), ids_ok_nil.
  - assert (H : StronglySorted Z.lt
                  (map SignaturePointApp.SignaturePoint.id
                       (SignaturePointApp.signaturePoints
                          (SignaturePointApp.run (SignaturePointApp.loaded numPages) evs))))
      by (apply (@run_ids_ok_sp Z.lt evs (SignaturePointApp.loaded numPages) Hst), ids_ok_nil).
    split; [ exact H | apply strictly_sorted_NoDup, H ].
Qed.

Lemma ids_follow_the_clock_witness :
  NoDup
    (map RegionApp.Region.id
         (RegionApp.rectangles
            (RegionApp.run (RegionApp.loaded 3)
               [RegionApp.MouseDown (Some Scenario.canvas800) (Scenario.pointerAt 10 10);
                RegionApp.MouseMove (Some Scenario.canvas800) (Scenario.pointerAt 60 60);
                RegionApp.MouseUp (Some Scenario.canvas800) (Scenario.pointerAt 60 60) 1000;
                RegionApp.MouseDown (Some Scenario.canvas800) (Scenario.pointerAt 100 100);
                RegionApp.MouseMove (Some Scenario.canvas800) (Scenario.pointerAt 160 180);
                RegionApp.MouseUp (Some Scenario.canvas800) (Scenario.pointerAt 160 180) 1001]))).
Proof.
  destruct ids_follow_the_clock as (H & _).
  apply H. cbn [RegionApp.stamps].
  repeat constructor; lia.
Defined.

(** C8, counterexample: two different signature points placed during the
    same millisecond carry the same id, and so do two different rectangles
    whose drags end during the same millisecond. *)
Lemma same_millisecond_same_id :
  (exists a b : SignaturePointApp.SignaturePoint.t,
      SignaturePointApp.signaturePoints
        (SignaturePointApp.run (SignaturePointApp.loaded 1)
           [SignaturePointApp.CanvasClick (Some Scenario.canvas800)
                                          (Scenario.pointerAt 100 100) 1000;
            SignaturePointApp.CanvasClick (Some Scenario.canvas800)
                                          (Scenario.pointerAt 200 300) 1000])
      = [a; b]
      /\ SignaturePointApp.SignaturePoint.id a = SignaturePointApp.SignaturePoint.id b
      /\ SignaturePointApp.SignaturePoint.x a = Num.of_Z 100
      /\ SignaturePointApp.SignaturePoint.x b = Num.of_Z 200)
  /\ (exists a b : RegionApp.Region.t,
        RegionApp.rectangles
          (RegionApp.run (RegionApp.loaded 1)
             [RegionApp.MouseDown (Some Scenario.canvas800) (Scenario.pointerAt 10 10);
              RegionApp.MouseMove (Some Scenario.canvas800) (Scenario.pointerAt 60 60);
              RegionApp.MouseUp (Some Scenario.canvas800) (Scenario.pointerAt 60 60) 1000;
              RegionApp.MouseDown (Some Scenario.canvas800) (Scenario.pointerAt 100 100);
              RegionApp.MouseMove (Some Scenario.canvas800) (Scenario.pointerAt 160 180);
              RegionApp.MouseUp (Some Scenario.canvas800) (Scenario.pointerAt 160 180) 1000])
        = [a; b]
        /\ RegionApp.Region.id a = RegionApp.Region.id b
        /\ RegionApp.Region.x a = Num.of_Z 10
        /\ RegionApp.Region.x b = Num.of_Z 100).
Proof.
  split; eexists; eexists; (split; [ reflexivity | ]); repeat split; reflexivity.
Qed.

(* ------------------------------------------------------------------ *)
(** * Further properties of the engine *)

(** ** Rounding and the top-left rectangle *)

Lemma round_comp (p q : Q) : p == q -> Math.round (Fin p) = Math.round (Fin q).
Proof.
  intros H. unfold Math.round. f_equal. apply Qfloor_comp. rewrite H. reflexivity.
Qed.

Lemma Qfloor_unique (x : Q) (z : Z) :
  (inject_Z z <= x)%Q -> (x < inject_Z z + 1)%Q -> Qfloor x = z.
Proof.
  intros Hl Hu.
  assert (H1 : (z <= Qfloor x)%Z).
  { rewrite <- (Qfloor_Z z). apply Qfloor_resp_le, Hl. }
  assert (H2 : (Qfloor x < z + 1)%Z).
  { rewrite Zlt_Qlt, inject_Z_plus. change (inject_Z 1) with 1%Q.
    apply Qle_lt_trans with x; [ apply Qfloor_le | exact Hu ]. }
  lia.
Qed.

Lemma le_of_Z (a b : Z) : (Num.of_Z a <= Num.of_Z b)%js = (a <=? b)%Z.
Proof.
  unfold Num.of_Z, Num.le.
  destruct (Z.leb_spec a b) as [H | H].
  - apply Qle_bool_iff. rewrite <- Zle_Qle. exact H.
  - destruct (Qle_bool (inject_Z a) (inject_Z b)) eqn:E; [ | reflexivity ].
    apply Qle_bool_iff in E. rewrite <- Zle_Qle in E. lia.
Qed.

Lemma Qle_bool_false (p q : Q) : Qle_bool p q = false -> (q < p)%Q.
Proof.
  intros H. apply Qnot_le_lt. intros Hle. apply Qle_bool_iff in Hle. congruence.
Qed.

(** [Math.min] and [Math.max] of two finite values. *)
Lemma min_fin (p q : Q) :
  exists m : Q, Math.min (Fin p) (Fin q) = Fin m /\ m == Qmin p q.
Proof.
  unfold Math.min, Num.lt.
  destruct (Qle_bool p q) eqn:E; cbn [negb].
  - exists p. split; [ reflexivity | ]. apply Qle_bool_iff in E.
    symmetry. apply Q.min_l, E.
  - exists q. split; [ reflexivity | ]. apply Qle_bool_false in E.
    symmetry. apply Q.min_r. apply Qlt_le_weak, E.
Qed.

Lemma max_fin (p q : Q) :
  exists m : Q, Math.max (Fin p) (Fin q) = Fin m /\ m == Qmax p q.
Proof.
  unfold Math.max, Num.lt.
  destruct (Qle_bool q p) eqn:E; cbn [negb].
  - exists p. split; [ reflexivity | ]. apply Qle_bool_iff in E.
    symmetry. apply Q.max_l, E.
  - exists q. split; [ reflexivity | ]. apply Qle_bool_false in E.
    symmetry. apply Q.max_r. apply Qlt_le_weak, E.
Qed.

Lemma round_min_comm (a b : number) :
  Math.round (Math.min a b) = Math.round (Math.min b a).
Proof.
  destruct a as [p | | | ], b as [q | | | ]; try reflexivity.
  destruct (min_fin p q) as (m & -> & Hm), (min_fin q p) as (m' & -> & Hm').
  apply round_comp. rewrite Hm, Hm'. apply Q.min_comm.
Qed.

Lemma round_abs_sub_comm (a b : number) :
  Math.round (Math.abs (b - a)) = Math.round (Math.abs (a - b)).
Proof.
  destruct a as [p | | | ], b as [q | | | ]; try reflexivity.
  cbn [Num.sub Math.abs]. rewrite (Qabs_Qminus q p). reflexivity.
Qed.

(** X1: the rectangle does not depend on the direction of the drag:
    exchanging the two corners gives the same rounded x, y, width and
    height, for all numbers, finite or not. *)
Theorem getTopLeftCoordinates_corner_order (x1 y1 x2 y2 : number) :
  getTopLeftCoordinates x1 y1 x2 y2 = getTopLeftCoordinates x2 y2 x1 y1.
Proof.
  unfold getTopLeftCoordinates. cbv zeta.
  rewrite (round_min_comm x1 x2), (round_min_comm y1 y2).
  rewrite (round_abs_sub_comm x1 x2), (round_abs_sub_comm y1 y2).
  reflexivity.
Qed.

Lemma abs_sub_is_max_minus_min (p q : Q) : Qabs (q - p) == Qmax p q - Qmin p q.
Proof.
  destruct (Qlt_le_dec q p) as [H | H].
  - rewrite (Q.max_l p q), (Q.min_r p q) by (apply Qlt_le_weak, H).
    rewrite Qabs_neg by lra. lra.
  - rewrite (Q.max_r p q), (Q.min_l p q) by exact H.
    rewrite Qabs_pos by lra. lra.
Qed.

(** One axis of getTopLeftCoordinates on finite corners. *)
Lemma rounded_span (p q : Q) :
  exists x w m : Z,
    Math.round (Math.min (Fin p) (Fin q)) = Num.of_Z x
    /\ Math.round (Math.abs (Fin q - Fin p)) = Num.of_Z w
    /\ Math.round (Math.max (Fin p) (Fin q)) = Num.of_Z m
    /\ (0 <= w)%Z /\ (m - 1 <= x + w <= m + 1)%Z.
Proof.
  destruct (min_fin p q) as (a & Ea & Ha), (max_fin p q) as (b & Eb & Hb).
  rewrite Ea, Eb. cbn [Num.sub Math.abs Math.round].
  set (d := Qabs (q - p)).
  exists (Qfloor (a + (1 # 2))), (Qfloor (d + (1 # 2))), (Qfloor (b + (1 # 2))).
  split; [ reflexivity | ]. split; [ reflexivity | ]. split; [ reflexivity | ].
  assert (Hd : d == b - a).
  { unfold d. rewrite Ha, Hb. apply abs_sub_is_max_minus_min. }
  assert (Hd0 : 0 <= d) by apply Qabs_nonneg.
  split; [ apply round_nonneg, Hd0 | ].
  destruct (round_nearest a) as (Hal & Hau).
  destruct (round_nearest d) as (Hdl & Hdu).
  destruct (round_nearest b) as (Hbl & Hbu).
  set (x := Qfloor (a + (1 # 2))) in *.
  set (w := Qfloor (d + (1 # 2))) in *.
  set (m := Qfloor (b + (1 # 2))) in *.
  split.
  - assert (H : (inject_Z m < inject_Z (x + w + 2))%Q).
    { rewrite !inject_Z_plus. change (inject_Z 2) with (2 # 1). lra. }
    rewrite <- Zlt_Qlt in H. lia.
  - assert (H : (inject_Z (x + w) < inject_Z (m + 2))%Q).
    { rewrite !inject_Z_plus. change (inject_Z 2) with (2 # 1). lra. }
    rewrite <- Zlt_Qlt in H. lia.
Qed.


(** The far edge can indeed be off by one: corners 0.5 and 1 give x = 1 and
    width = 1, a right edge of 2, while the larger corner rounds to 1. *)
Example far_edge_off_by_one :
  getTopLeftCoordinates (Fin (1 # 2)) (Fin 0) (Fin 1) (Fin 0)
  = Coords.mk (Num.of_Z 1) (Num.of_Z 0) (Num.of_Z 1) (Num.of_Z 0).
Proof. reflexivity. Qed.

(** ** More on the unit conversion *)



Lemma pointsToPixels_neg (q : Q) : (q < 0)%Q -> pointsToPixels (Fin q) = Num.of_Z 0.
Proof.
  intros Hq. unfold pointsToPixels.
  assert (E : (Fin q < Num.of_Z 0)%js = negb (Qle_bool 0 q)) by reflexivity.
  rewrite E. destruct (Qle_bool 0 q) eqn:Hb; [ | reflexivity ].
  apply Qle_bool_iff in Hb. lra.
Qed.

(** Both conversions as one integer-valued function of a finite argument. *)
Lemma pixelsToPoints_value (q : Q) :
  exists n : Z,
    pixelsToPoints (Fin q) = Num.of_Z n /\ (0 <= n)%Z
    /\ ((q < 0)%Q -> n = 0%Z)
    /\ ((0 <= q)%Q -> n = Qfloor (q * (3 # 4) + (1 # 2))).
Proof.
  destruct (Qlt_le_dec q 0) as [Hneg | Hpos].
  - exists 0%Z. rewrite (pixelsToPoints_neg Hneg).
    repeat split; try lia. intros. lra.
  - exists (Qfloor (q * (3 # 4) + (1 # 2))).
    rewrite (pixelsToPoints_fin Hpos).
    assert (Hr : q * inject_Z 72 / inject_Z 96 == q * (3 # 4)) by field.
    split; [ f_equal; apply Qfloor_comp; rewrite Hr; reflexivity | ].
    split; [ apply round_nonneg; lra | ].
    split; [ intros; lra | reflexivity ].
Qed.

Lemma pointsToPixels_value (q : Q) :
  exists n : Z,
    pointsToPixels (Fin q) = Num.of_Z n /\ (0 <= n)%Z
    /\ ((q < 0)%Q -> n = 0%Z)
    /\ ((0 <= q)%Q -> n = Qfloor (q * (4 # 3) + (1 # 2))).
Proof.
  destruct (Qlt_le_dec q 0) as [Hneg | Hpos].
  - exists 0%Z. rewrite (pointsToPixels_neg Hneg).
    repeat split; try lia. intros. lra.
  - exists (Qfloor (q * (4 # 3) + (1 # 2))).
    rewrite (pointsToPixels_fin Hpos).
    assert (Hr : q * inject_Z 96 / inject_Z 72 == q * (4 # 3)) by field.
    split; [ f_equal; apply Qfloor_comp; rewrite Hr; reflexivity | ].
    split; [ apply round_nonneg; lra | ].
    split; [ intros; lra | reflexivity ].
Qed.

(** X4: both conversions are monotone on finite values: a larger pixel
    value never gives fewer points, and a larger point value never gives
    fewer pixels (negative arguments included, which give 0). *)
Theorem conversions_monotone (p q : Q) :
  (p <= q)%Q ->
  (pixelsToPoints (Fin p) <= pixelsToPoints (Fin q))%js = true
  /\ (pointsToPixels (Fin p) <= pointsToPixels (Fin q))%js = true.
Proof.
  intros Hpq. split.
  - destruct (pixelsToPoints_value p) as (n & -> & Hn & Hnneg & Hnpos).
    destruct (pixelsToPoints_value q) as (m & -> & Hm & Hmneg & Hmpos).
    rewrite le_of_Z. apply Z.leb_le.
    destruct (Qlt_le_dec p 0) as [Hp | Hp]; [ rewrite (Hnneg Hp); exact Hm | ].
    rewrite (Hnpos Hp), (Hmpos (Qle_trans _ _ _ Hp Hpq)).
    apply Qfloor_resp_le. lra.
  - destruct (pointsToPixels_value p) as (n & -> & Hn & Hnneg & Hnpos).
    destruct (pointsToPixels_value q) as (m & -> & Hm & Hmneg & Hmpos).
    rewrite le_of_Z. apply Z.leb_le.
    destruct (Qlt_le_dec p 0) as [Hp | Hp]; [ rewrite (Hnneg Hp); exact Hm | ].
    rewrite (Hnpos Hp), (Hmpos (Qle_trans _ _ _ Hp Hpq)).
    apply Qfloor_resp_le. lra.
Qed.

Lemma conversions_monotone_witness :
  (pixelsToPoints (Fin 100) <= pixelsToPoints (Fin (301 # 2)))%js = true
  /\ (pointsToPixels (Fin 100) <= pointsToPixels (Fin (301 # 2)))%js = true.
Proof. apply conversions_monotone. unfold Qle; simpl; lia. Defined.

(** Monotonicity stops at the finite values: +Infinity converts to 0. *)
Example infinity_converts_to_zero :
  pixelsToPoints PosInf = Num.of_Z 0 /\ pointsToPixels PosInf = Num.of_Z 0.
Proof. split; reflexivity. Qed.




(** ** Cancelling a gesture *)

(** Without an active gesture, pointer-moves and pointer-ups do nothing. *)
Lemma not_drawing_ignores_moves (evs : list RegionApp.event) :
  Forall moveOrUp evs ->
  forall s : RegionApp.State,
    RegionApp.isDrawing s = false -> RegionApp.run s evs = s.
Proof.
  induction 1 as [ | ev evs Hev _ IH ]; intros s Hd; [ reflexivity | ].
  rewrite run_cons.
  assert (E : RegionApp.step s ev = s).
  { destruct ev; try contradiction; cbn [RegionApp.step].
    - unfold RegionApp.handleMouseMove. rewrite Hd. reflexivity.
    - unfold RegionApp.handleMouseUp. rewrite Hd. reflexivity. }
  rewrite E. apply IH, Hd.
Qed.

Lemma not_drawing_ignores_moves_ds (evs : list DocuSignRegionApp.event) :
  Forall moveOrUp_ds evs ->
  forall s : DocuSignRegionApp.State,
    DocuSignRegionApp.isDrawing (DocuSignRegionApp.drawingStateRef s) = false ->
    DocuSignRegionApp.run s evs = s.
Proof.
  induction 1 as [ | ev evs Hev _ IH ]; intros s Hd; [ reflexivity | ].
  rewrite run_cons_ds.
  assert (E : DocuSignRegionApp.step s ev = s).
  { destruct ev; try contradiction; cbn [DocuSignRegionApp.step].
    - unfold DocuSignRegionApp.handleMouseMove. cbv zeta. rewrite Hd. reflexivity.
    - unfold DocuSignRegionApp.handleMouseUp. cbv zeta. rewrite Hd. reflexivity. }
  rewrite E. apply IH, Hd.
Qed.

(** X7: the pointer leaving the canvas cancels the gesture for good: after
    onMouseLeave, whatever pointer-moves and pointer-ups follow (with no new
    pointer-down) leave the state as onMouseLeave left it, so nothing of the
    abandoned gesture is saved.  Both rectangle selectors. *)
Theorem mouse_leave_cancels_gesture :
  (forall (s : RegionApp.State) (evs : list RegionApp.event),
      Forall moveOrUp evs ->
      RegionApp.run (RegionApp.handleMouseLeave s) evs = RegionApp.handleMouseLeave s
      /\ RegionApp.rectangles (RegionApp.run (RegionApp.handleMouseLeave s) evs)
         = RegionApp.rectangles s)
  /\ (forall (s : DocuSignRegionApp.State) (evs : list DocuSignRegionApp.event),
        Forall moveOrUp_ds evs ->
        DocuSignRegionApp.run (DocuSignRegionApp.handleMouseLeave s) evs
        = DocuSignRegionApp.handleMouseLeave s
        /\ DocuSignRegionApp.rectangles
             (DocuSignRegionApp.run (DocuSignRegionApp.handleMouseLeave s) evs)
           = DocuSignRegionApp.rectangles s).
Proof.
  split; intros s evs Hevs.
  - rewrite (not_drawing_ignores_moves Hevs); [ split; reflexivity | reflexivity ].
  - rewrite (not_drawing_ignores_moves_ds Hevs); [ split; reflexivity | reflexivity ].
Qed.

Lemma mouse_leave_cancels_gesture_witness :
  RegionApp.rectangles
    (RegionApp.run
       (RegionApp.handleMouseLeave
          (RegionApp.run (RegionApp.loaded 3)
             [RegionApp.MouseDown (Some Scenario.canvas800) (Scenario.pointerAt 10 10);
              RegionApp.MouseMove (Some Scenario.canvas800) (Scenario.pointerAt 60 60)]))
       [RegionApp.MouseMove (Some Scenario.canvas800) (Scenario.pointerAt 80 90);
        RegionApp.MouseUp (Some Scenario.canvas800) (Scenario.pointerAt 80 90) 1000])
  = [].
Proof.
  destruct mouse_leave_cancels_gesture as (H & _).
  apply H. repeat constructor.
Defined.

(** ** Pages *)

Lemma goToPage_inBounds (s : RegionApp.State) (n : Z) :
  Navigation.inBounds s -> Navigation.inBounds (RegionApp.goToPage n s).
Proof.
  unfold Navigation.inBounds, RegionApp.goToPage. intros H.
  destruct (Z.leb_spec 1 n), (Z.leb_spec n (RegionApp.totalPages s));
    cbn [andb]; cbn; lia.
Qed.

Lemma goToPage_totalPages (s : RegionApp.State) (n : Z) :
  RegionApp.totalPages (RegionApp.goToPage n s) = RegionApp.totalPages s.
Proof.
  unfold RegionApp.goToPage.
  destruct ((1 <=? n)%Z && (n <=? RegionApp.totalPages s)%Z); reflexivity.
Qed.

Lemma goToPage_rectangles (s : RegionApp.State) (n : Z) :
  RegionApp.rectangles (RegionApp.goToPage n s) = RegionApp.rectangles s.
Proof.
  unfold RegionApp.goToPage.
  destruct ((1 <=? n)%Z && (n <=? RegionApp.totalPages s)%Z); reflexivity.
Qed.

(** The canvas and sidebar handlers other than goToPage leave the page
    numbers alone. *)
Lemma step_pages (s : RegionApp.State) (ev : RegionApp.event) :
  RegionApp.totalPages (RegionApp.step s ev) = RegionApp.totalPages s
  /\ ((forall n, ev <> RegionApp.GoToPage n) ->
      RegionApp.currentPage (RegionApp.step s ev) = RegionApp.currentPage s).
Proof.
  destruct ev as [c e | c e | c e now | | n | i | ]; cbn [RegionApp.step].
  - unfold RegionApp.handleMouseDown.
    destruct (RegionApp.getCanvasCoordinates c e); auto.
  - unfold RegionApp.handleMouseMove.
    destruct (RegionApp.isDrawing s), (RegionApp.startPos s),
      (RegionApp.getCanvasCoordinates c e); auto.
  - unfold RegionApp.handleMouseUp.
    destruct (negb (RegionApp.isDrawing s) || negb (truthy (RegionApp.startPos s)));
      [ auto | ].
    destruct (RegionApp.getCanvasCoordinates c e); [ | auto ].
    destruct (RegionApp.currentRect s); [ | auto ].
    cbv zeta. destruct (_ && _); auto.
  - auto.
  - split; [ apply goToPage_totalPages | ]. intros H. exfalso. apply (H n). reflexivity.
  - auto.
  - auto.
Qed.

Lemma handleKeyPress_is_goToPage (pdfDoc : option Navigation.PDFDocument.t)
      (key : String.string) (s : RegionApp.State) :
  Navigation.handleKeyPress pdfDoc key s = s
  \/ exists n : Z, Navigation.handleKeyPress pdfDoc key s = RegionApp.goToPage n s.
Proof.
  unfold Navigation.handleKeyPress.
  destruct (negb (truthy pdfDoc)); [ left; reflexivity | ].
  destruct (_ || _); [ right; eexists; reflexivity | ].
  destruct (_ || _); [ right; eexists; reflexivity | left; reflexivity ].
Qed.

Lemma stepInput_inBounds (s : RegionApp.State) (i : Navigation.input) :
  Navigation.inBounds s ->
  Navigation.inBounds (Navigation.stepInput s i)
  /\ RegionApp.totalPages (Navigation.stepInput s i) = RegionApp.totalPages s.
Proof.
  intros H. destruct i as [ev | pdfDoc key | | ]; cbn [Navigation.stepInput].
  - destruct ev as [c e | c e | c e now | | n | j | ];
      try (destruct (step_pages s (RegionApp.GoToPage n)) as (Ht & _);
           split; [ apply goToPage_inBounds, H | exact Ht ]);
      match goal with
      | |- context [RegionApp.step s ?ev] =>
          destruct (step_pages s ev) as (Ht & Hc);
          unfold Navigation.inBounds; rewrite Ht, Hc by discriminate;
          split; [ exact H | reflexivity ]
      end.
  - destruct (handleKeyPress_is_goToPage pdfDoc key s) as [-> | (n & ->)].
    + split; [ exact H | reflexivity ].
    + split; [ apply goToPage_inBounds, H | apply goToPage_totalPages ].
  - split; [ apply goToPage_inBounds, H | apply goToPage_totalPages ].
  - split; [ apply goToPage_inBounds, H | apply goToPage_totalPages ].
Qed.

(** X8: the current page stays one of the document's pages: from a state
    with 1 <= currentPage <= totalPages, every sequence of canvas events,
    key presses, Prev / Next clicks and goToPage calls ends in such a state,
    with the same totalPages. *)
Theorem currentPage_stays_in_bounds (inputs : list Navigation.input) :
  forall s : RegionApp.State,
    Navigation.inBounds s ->
    Navigation.inBounds (Navigation.runInputs s inputs)
    /\ RegionApp.totalPages (Navigation.runInputs s inputs) = RegionApp.totalPages s.
Proof.
  induction inputs as [ | i inputs IH ]; intros s H; [ split; [ exact H | reflexivity ] | ].
  change (Navigation.runInputs s (i :: inputs))
    with (Navigation.runInputs (Navigation.stepInput s i) inputs).
  destruct (stepInput_inBounds i H) as (Hb & Ht).
  destruct (IH _ Hb) as (Hb' & Ht'). split; [ exact Hb' | congruence ].
Qed.

Lemma currentPage_stays_in_bounds_witness :
  Navigation.inBounds
    (Navigation.runInputs (RegionApp.loaded 3)
       [Navigation.KeyDown (Some (Navigation.PDFDocument.mk 3)) "n"%string;
        Navigation.ClickNext; Navigation.ClickNext;
        Navigation.KeyDown (Some (Navigation.PDFDocument.mk 3)) "ArrowRight"%string;
        Navigation.Dom (RegionApp.GoToPage 7)]).
Proof.
  apply (@currentPage_stays_in_bounds _ (RegionApp.loaded 3)).
  unfold Navigation.inBounds. cbn. lia.
Defined.

(** The page tags of the saved rectangles, one input at a time. *)
Lemma stepInput_page_tags (s : RegionApp.State) (i : Navigation.input) :
  Navigation.inBounds s ->
  Forall (fun r => (1 <= RegionApp.Region.pageNum r <= RegionApp.totalPages s)%Z)
         (RegionApp.rectangles s) ->
  Forall (fun r => (1 <= RegionApp.Region.pageNum r <= RegionApp.totalPages s)%Z)
         (RegionApp.rectangles (Navigation.stepInput s i)).
Proof.
  intros Hb H.
  assert (Hgo : forall n,
             Forall (fun r => (1 <= RegionApp.Region.pageNum r <= RegionApp.totalPages s)%Z)
                    (RegionApp.rectangles (RegionApp.goToPage n s)))
    by (intros n; rewrite goToPage_rectangles; exact H).
  destruct i as [ev | pdfDoc key | | ]; cbn [Navigation.stepInput];
    [ | destruct (handleKeyPress_is_goToPage pdfDoc key s) as [-> | (n & ->)];
        [ exact H | apply Hgo ]
      | apply Hgo | apply Hgo ].
  destruct ev as [c e | c e | c e now | | n | j | ]; cbn [RegionApp.step].
  - unfold RegionApp.handleMouseDown. destruct (RegionApp.getCanvasCoordinates c e); exact H.
  - unfold RegionApp.handleMouseMove.
    destruct (RegionApp.isDrawing s), (RegionApp.startPos s),
      (RegionApp.getCanvasCoordinates c e); exact H.
  - unfold RegionApp.handleMouseUp.
    destruct (negb (RegionApp.isDrawing s) || negb (truthy (RegionApp.startPos s)));
      [ exact H | ].
    destruct (RegionApp.getCanvasCoordinates c e); [ | exact H ].
    destruct (RegionApp.currentRect s); [ | exact H ].
    cbv zeta. destruct (_ && _); [ | exact H ].
    cbn. apply Forall_app. split; [ exact H | ].
    constructor; [ exact Hb | constructor ].
  - exact H.
  - apply Hgo.
  - cbn. apply Forall_filter_keep, H.
  - cbn. apply Forall_filter_keep, H.
Qed.

(** X9: every saved rectangle is tagged with a page of the document: in
    every state reached from a freshly loaded document of numPages >= 1
    pages, by any sequence of canvas events, key presses, button clicks and
    goToPage calls, each rectangle has 1 <= pageNum <= numPages. *)
Theorem saved_rectangles_on_document_pages (numPages : Z) (inputs : list Navigation.input) :
  (1 <= numPages)%Z ->
  Forall (fun r => (1 <= RegionApp.Region.pageNum r <= numPages)%Z)
         (RegionApp.rectangles (Navigation.runInputs (RegionApp.loaded numPages) inputs)).
Proof.
  intros Hn.
  assert (G : forall s : RegionApp.State,
             Navigation.inBounds s ->
             Forall (fun r => (1 <= RegionApp.Region.pageNum r <= RegionApp.totalPages s)%Z)
                    (RegionApp.rectangles s) ->
             Forall (fun r => (1 <= RegionApp.Region.pageNum r <= RegionApp.totalPages s)%Z)
                    (RegionApp.rectangles (Navigation.runInputs s inputs))).
  { induction inputs as [ | i inputs IH ]; intros s Hb H; [ exact H | ].
    change (Navigation.runInputs s (i :: inputs))
      with (Navigation.runInputs (Navigation.stepInput s i) inputs).
    destruct (stepInput_inBounds i Hb) as (Hb' & Ht).
    rewrite <- Ht. apply IH; [ exact Hb' | ].
    rewrite Ht. apply stepInput_page_tags; assumption. }
  apply (G (RegionApp.loaded numPages)); [ | constructor ].
  unfold Navigation.inBounds. cbn. lia.
Qed.

Lemma saved_rectangles_on_document_pages_witness :
  Forall (fun r => (1 <= RegionApp.Region.pageNum r <= 3)%Z)
         (RegionApp.rectangles
            (Navigation.runInputs (RegionApp.loaded 3)
               [Navigation.ClickNext;
                Navigation.Dom (RegionApp.MouseDown (Some Scenario.canvas800)
                                                    (Scenario.pointerAt 10 10));
                Navigation.Dom (RegionApp.MouseMove (Some Scenario.canvas800)
                                                    (Scenario.pointerAt 60 60));
                Navigation.Dom (RegionApp.MouseUp (Some Scenario.canvas800)
                                                  (Scenario.pointerAt 60 60) 1000)])).
Proof. apply saved_rectangles_on_document_pages. lia. Defined.

(** ** The store of saved rectangles *)

Lemma filter_all_true {A : Type} (l : list A) : filter (fun _ => true) l = l.
Proof. induction l as [ | a l IH ]; cbn; [ | rewrite IH ]; reflexivity. Qed.

(** X10: no input modifies or reorders the saved rectangles: after one
    input the list is either the old list with some rectangles removed, or,
    for a pointer-up only, the old list with one rectangle appended at the
    end, whose id is the clock reading of that pointer-up and whose page is
    the current page. *)
Theorem stepInput_appends_or_removes (s : RegionApp.State) (i : Navigation.input) :
  (exists keep : RegionApp.Region.t -> bool,
      RegionApp.rectangles (Navigation.stepInput s i) = filter keep (RegionApp.rectangles s))
  \/ (exists (c : option Canvas.t) (e : MouseEvent.t) (now : Z) (r : RegionApp.Region.t),
         i = Navigation.Dom (RegionApp.MouseUp c e now)
         /\ RegionApp.rectangles (Navigation.stepInput s i) = RegionApp.rectangles s ++ [r]
         /\ RegionApp.Region.id r = now
         /\ RegionApp.Region.pageNum r = RegionApp.currentPage s).
Proof.
  assert (Hsame : forall s' : RegionApp.State,
             RegionApp.rectangles s' = RegionApp.rectangles s ->
             exists keep : RegionApp.Region.t -> bool,
               RegionApp.rectangles s' = filter keep (RegionApp.rectangles s)).
  { intros s' E. exists (fun _ => true). rewrite filter_all_true. exact E. }
  destruct i as [ev | pdfDoc key | | ]; cbn [Navigation.stepInput].
  - destruct ev as [c e | c e | c e now | | n | j | ]; cbn [RegionApp.step].
    + left. apply Hsame. unfold RegionApp.handleMouseDown.
      destruct (RegionApp.getCanvasCoordinates c e); reflexivity.
    + left. apply Hsame. unfold RegionApp.handleMouseMove.
      destruct (RegionApp.isDrawing s), (RegionApp.startPos s),
        (RegionApp.getCanvasCoordinates c e); reflexivity.
    + unfold RegionApp.handleMouseUp.
      destruct (negb (RegionApp.isDrawing s) || negb (truthy (RegionApp.startPos s)));
        [ left; apply Hsame; reflexivity | ].
      destruct (RegionApp.getCanvasCoordinates c e); [ | left; apply Hsame; reflexivity ].
      destruct (RegionApp.currentRect s) as [cr | ]; [ | left; apply Hsame; reflexivity ].
      cbv zeta. destruct (_ && _); [ | left; apply Hsame; reflexivity ].
      right. do 4 eexists. split; [ reflexivity | ]. cbn. repeat split.
    + left. apply Hsame. reflexivity.
    + left. apply Hsame, goToPage_rectangles.
    + left. eexists. reflexivity.
    + left. eexists. reflexivity.
  - left. apply Hsame.
    destruct (handleKeyPress_is_goToPage pdfDoc key s) as [-> | (n & ->)];
      [ reflexivity | apply goToPage_rectangles ].
  - left. apply Hsame, goToPage_rectangles.
  - left. apply Hsame, goToPage_rectangles.
Qed.

Section DeleteById.

Variables (A : Type) (ident : A -> Z) (i : Z).

Lemma deleted_In (r : A) (l : list A) :
  In r (filter (fun r => negb (ident r =? i)%Z) l) <-> In r l /\ ident r <> i.
Proof.
  rewrite filter_In.
  destruct (Z.eqb_spec (ident r) i); cbn [negb]; intuition congruence.
Qed.

Lemma deleted_absent (l : list A) :
  ~ In i (map ident l) -> filter (fun r => negb (ident r =? i)%Z) l = l.
Proof.
  induction l as [ | a l IH ]; intros H; [ reflexivity | ].
  cbn [filter]. cbn [map In] in H.
  destruct (Z.eqb_spec (ident a) i) as [E | E]; [ tauto | ].
  cbn [negb]. f_equal. apply IH. tauto.
Qed.

Lemma deleted_twice (l : list A) :
  filter (fun r => negb (ident r =? i)%Z) (filter (fun r => negb (ident r =? i)%Z) l)
  = filter (fun r => negb (ident r =? i)%Z) l.
Proof.
  apply deleted_absent. intros H. apply in_map_iff in H.
  destruct H as (r & E & Hr). apply deleted_In in Hr. tauto.
Qed.

Lemma deleted_one (l : list A) :
  NoDup (map ident l) -> In i (map ident l) ->
  (length (filter (fun r => negb (ident r =? i)%Z) l) + 1 = length l)%nat.
Proof.
  induction l as [ | a l IH ]; intros Hnd Hin; [ contradiction | ].
  cbn [map] in Hnd, Hin. inversion Hnd as [ | ? ? Ha Hl ]; subst.
  cbn [filter].
  destruct (Z.eqb_spec (ident a) i) as [E | E]; cbn [negb length].
  - rewrite E in Ha. rewrite (deleted_absent l Ha). lia.
  - destruct Hin as [Hin | Hin]; [ contradiction | ].
    specialize (IH Hl Hin). lia.
Qed.

End DeleteById.

(** X11: handleDeleteRect removes the rectangles that carry the given id
    and nothing else: a rectangle is kept if and only if it was there with
    another id; deleting an id no rectangle carries returns the state
    unchanged; deleting twice is deleting once; and when the ids are
    pairwise distinct and the id is present, exactly one rectangle goes.  No
    other field of the state changes. *)
Theorem handleDeleteRect_removes_the_id (s : RegionApp.State) (i : Z) :
  (forall r : RegionApp.Region.t,
      In r (RegionApp.rectangles (RegionApp.handleDeleteRect i s))
      <-> In r (RegionApp.rectangles s) /\ RegionApp.Region.id r <> i)
  /\ (~ In i (map RegionApp.Region.id (RegionApp.rectangles s)) ->
      RegionApp.handleDeleteRect i s = s)
  /\ RegionApp.handleDeleteRect i (RegionApp.handleDeleteRect i s)
     = RegionApp.handleDeleteRect i s
  /\ (NoDup (map RegionApp.Region.id (RegionApp.rectangles s)) ->
      In i (map RegionApp.Region.id (RegionApp.rectangles s)) ->
      (length (RegionApp.rectangles (RegionApp.handleDeleteRect i s)) + 1
       = length (RegionApp.rectangles s))%nat)
  /\ RegionApp.currentPage (RegionApp.handleDeleteRect i s) = RegionApp.currentPage s
  /\ RegionApp.totalPages (RegionApp.handleDeleteRect i s) = RegionApp.totalPages s
  /\ RegionApp.currentRect (RegionApp.handleDeleteRect i s) = RegionApp.currentRect s
  /\ RegionApp.isDrawing (RegionApp.handleDeleteRect i s) = RegionApp.isDrawing s
  /\ RegionApp.startPos (RegionApp.handleDeleteRect i s) = RegionApp.startPos s.
Proof.
  split; [ intros r; apply deleted_In | ].
  split.
  { intros H. unfold RegionApp.handleDeleteRect, RegionApp.setRectangles.
    rewrite (deleted_absent _ _ _ H). destruct s; reflexivity. }
  split.
  { unfold RegionApp.handleDeleteRect, RegionApp.setRectangles. cbn.
    rewrite deleted_twice. reflexivity. }
  split; [ intros Hnd Hin; apply deleted_one; assumption | ].
  cbn. auto.
Qed.

(** When two rectangles share an id (see C8), deleting that id removes
    both. *)
Example delete_removes_both_of_a_shared_id :
  RegionApp.rectangles
    (RegionApp.handleDeleteRect 1000
       (RegionApp.run (RegionApp.loaded 1)
          [RegionApp.MouseDown (Some Scenario.canvas800) (Scenario.pointerAt 10 10);
           RegionApp.MouseMove (Some Scenario.canvas800) (Scenario.pointerAt 60 60);
           RegionApp.MouseUp (Some Scenario.canvas800) (Scenario.pointerAt 60 60) 1000;
           RegionApp.MouseDown (Some Scenario.canvas800) (Scenario.pointerAt 100 100);
           RegionApp.MouseMove (Some Scenario.canvas800) (Scenario.pointerAt 160 180);
           RegionApp.MouseUp (Some Scenario.canvas800) (Scenario.pointerAt 160 180) 1000]))
  = [].
Proof. reflexivity. Qed.

Lemma filter_filter_comm {A : Type} (f g : A -> bool) (l : list A) :
  filter f (filter g l) = filter g (filter f l).
Proof.
  induction l as [ | a l IH ]; [ reflexivity | ].
  cbn [filter]. destruct (f a) eqn:Ef, (g a) eqn:Eg; cbn [filter];
    rewrite ?Ef, ?Eg, IH; reflexivity.
Qed.

(** X12: the removals commute: deleting two ids in either order, and
    deleting an id before or after clearing the current page, give the same
    state; clearing the current page twice is clearing it once. *)
Theorem removals_commute (s : RegionApp.State) (i j : Z) :
  RegionApp.handleDeleteRect i (RegionApp.handleDeleteRect j s)
  = RegionApp.handleDeleteRect j (RegionApp.handleDeleteRect i s)
  /\ RegionApp.handleDeleteRect i (RegionApp.handleClearPage s)
     = RegionApp.handleClearPage (RegionApp.handleDeleteRect i s)
  /\ RegionApp.handleClearPage (RegionApp.handleClearPage s)
     = RegionApp.handleClearPage s.
Proof.
  unfold RegionApp.handleDeleteRect, RegionApp.handleClearPage, RegionApp.setRectangles.
  cbn. split; [ | split ].
  - f_equal. apply filter_filter_comm.
  - f_equal. apply filter_filter_comm.
  - f_equal.
    apply cleared_nothing_on_page.
    apply Forall_forall. intros r Hr. apply cleared_In in Hr. tauto.
Qed.

(** ** Keys and buttons *)

(** X13: with a document loaded and the current page within bounds, the
    keys ArrowRight and n do what the Next button does and ArrowLeft and p
    what the Prev button does; Next (Prev) leaves the state unchanged
    exactly when its button is disabled, that is on the last (first) page;
    otherwise Next moves one page forward and Prev then returns to the page
    it started from.  Without a document every key is ignored. *)
Theorem keys_and_buttons (s : RegionApp.State) (pdf : Navigation.PDFDocument.t) :
  Navigation.inBounds s ->
  Navigation.handleKeyPress (Some pdf) "ArrowRight"%string s = Navigation.onClickNext s
  /\ Navigation.handleKeyPress (Some pdf) "n"%string s = Navigation.onClickNext s
  /\ Navigation.handleKeyPress (Some pdf) "ArrowLeft"%string s = Navigation.onClickPrev s
  /\ Navigation.handleKeyPress (Some pdf) "p"%string s = Navigation.onClickPrev s
  /\ (Navigation.nextDisabled s = true <-> Navigation.onClickNext s = s)
  /\ (Navigation.prevDisabled s = true <-> Navigation.onClickPrev s = s)
  /\ (Navigation.nextDisabled s = false ->
      RegionApp.currentPage (Navigation.onClickNext s) = (RegionApp.currentPage s + 1)%Z
      /\ RegionApp.currentPage (Navigation.onClickPrev (Navigation.onClickNext s))
         = RegionApp.currentPage s)
  /\ (forall key : String.string, Navigation.handleKeyPress None key s = s).
Proof.
  intros Hb. unfold Navigation.inBounds in Hb.
  split; [ reflexivity | ]. split; [ reflexivity | ].
  split; [ reflexivity | ]. split; [ reflexivity | ].
  unfold Navigation.nextDisabled, Navigation.prevDisabled,
    Navigation.onClickNext, Navigation.onClickPrev, RegionApp.goToPage.
  split; [ | split; [ | split ] ].
  - destruct (Z.eqb_spec (RegionApp.currentPage s) (RegionApp.totalPages s)) as [E | E].
    + split; [ intros _ | reflexivity ].
      destruct (Z.leb_spec 1 (RegionApp.currentPage s + 1)),
        (Z.leb_spec (RegionApp.currentPage s + 1) (RegionApp.totalPages s));
        cbn [andb]; try reflexivity; lia.
    + split; [ discriminate | ]. intros H. exfalso.
      destruct (Z.leb_spec 1 (RegionApp.currentPage s + 1)),
        (Z.leb_spec (RegionApp.currentPage s + 1) (RegionApp.totalPages s));
        cbn [andb] in H; try lia.
      apply (f_equal RegionApp.currentPage) in H. cbn in H. lia.
  - destruct (Z.eqb_spec (RegionApp.currentPage s) 1) as [E | E].
    + split; [ intros _ | reflexivity ].
      destruct (Z.leb_spec 1 (RegionApp.currentPage s - 1)),
        (Z.leb_spec (RegionApp.currentPage s - 1) (RegionApp.totalPages s));
        cbn [andb]; try reflexivity; lia.
    + split; [ discriminate | ]. intros H. exfalso.
      destruct (Z.leb_spec 1 (RegionApp.currentPage s - 1)),
        (Z.leb_spec (RegionApp.currentPage s - 1) (RegionApp.totalPages s));
        cbn [andb] in H; try lia.
      apply (f_equal RegionApp.currentPage) in H. cbn in H. lia.
  - intros Hd. apply Z.eqb_neq in Hd.
    destruct (Z.leb_spec 1 (RegionApp.currentPage s + 1)),
      (Z.leb_spec (RegionApp.currentPage s + 1) (RegionApp.totalPages s));
      cbn [andb]; try lia.
    cbn. split; [ reflexivity | ].
    destruct (Z.leb_spec 1 (RegionApp.currentPage s + 1 - 1)),
      (Z.leb_spec (RegionApp.currentPage s + 1 - 1) (RegionApp.totalPages s));
      cbn [andb]; cbn; lia.
  - reflexivity.
Qed.

Lemma keys_and_buttons_witness :
  (Navigation.nextDisabled (RegionApp.loaded 3) = false ->
   RegionApp.currentPage (Navigation.onClickNext (RegionApp.loaded 3)) = (1 + 1)%Z
   /\ RegionApp.currentPage
        (Navigation.onClickPrev (Navigation.onClickNext (RegionApp.loaded 3))) = 1%Z)
  /\ Navigation.handleKeyPress (Some (Navigation.PDFDocument.mk 3)) "n"%string
                               (RegionApp.loaded 3)
     = Navigation.onClickNext (RegionApp.loaded 3).
Proof.
  destruct (@keys_and_buttons (RegionApp.loaded 3) (Navigation.PDFDocument.mk 3))
    as (_ & Hn & _ & _ & _ & _ & Hmove & _).
  - unfold Navigation.inBounds. cbn. lia.
  - split; [ exact Hmove | exact Hn ].
Defined.

(** ** What the guards of the DocuSign selectors buy *)

Lemma guarded_position_finite (c : option Canvas.t) (e : MouseEvent.t) (pos : Pos.t) :
  DocuSignRegionApp.getCanvasCoordinates c e = Some pos -> finitePos pos.
Proof.
  unfold DocuSignRegionApp.getCanvasCoordinates.
  destruct c as [canvas | ]; [ | discriminate ]. cbv zeta.
  destruct (_ || _); [ discriminate | ].
  destruct (_ || _); [ discriminate | ].
  match goal with
  | |- context [negb (Num.isFinite ?a) || negb (Num.isFinite ?b)] =>
      destruct (Num.isFinite a) eqn:Ea; [ | discriminate ];
      destruct (Num.isFinite b) eqn:Eb; [ | discriminate ]
  end.
  cbn [negb orb]. intros H. injection H as <-. split; assumption.
Qed.

Lemma finite_is_Fin (a : number) : Num.isFinite a = true -> exists q : Q, a = Fin q.
Proof. destruct a; try discriminate. intros _. eexists. reflexivity. Qed.

Lemma gt_5_at_least_6 (w : Z) : (Num.of_Z w > Num.of_Z 5)%js = true -> (6 <= w)%Z.
Proof.
  unfold Num.gt. rewrite lt_of_Z. intros H. apply Z.ltb_lt in H. lia.
Qed.

Section DocuSignFinite.

Import DocuSignRegionApp.

Let inv (s : State) : Prop :=
  finiteGesture (drawingStateRef s) /\ Forall integerRegion (rectangles s).

Lemma step_keeps_finite (s : State) (ev : event) : inv s -> inv (step s ev).
Proof.
  intros (Hg & Hr). destruct ev as [c e | c e | c e now | | i | ]; cbn [step].
  - unfold handleMouseDown.
    destruct (getCanvasCoordinates c e) as [pos | ] eqn:Ep; [ | split; assumption ].
    destruct (guarded_position_finite _ _ Ep) as (Hx & Hy).
    split; [ | exact Hr ]. split; cbn.
    + intros p H. injection H as <-. split; assumption.
    + intros cr H. injection H as <-. cbn. auto.
  - unfold handleMouseMove. cbv zeta.
    destruct (isDrawing (drawingStateRef s)); [ | split; assumption ].
    destruct (startPos (drawingStateRef s)) as [start | ] eqn:Es; [ | split; assumption ].
    destruct (getCanvasCoordinates c e) as [pos | ] eqn:Ep; [ | split; assumption ].
    destruct (guarded_position_finite _ _ Ep) as (Hx & Hy).
    destruct Hg as (Hgs & Hgr). destruct (Hgs _ Es) as (Hsx & Hsy).
    split; [ | exact Hr ]. split; cbn.
    + intros p H. injection H as <-. split; assumption.
    + intros cr H. injection H as <-. cbn. auto.
  - unfold handleMouseUp. cbv zeta.
    destruct (negb _ || negb _); [ split; assumption | ].
    destruct (getCanvasCoordinates c e); [ | split; assumption ].
    destruct (currentRect (drawingStateRef s)) as [cr | ] eqn:Ec; [ | split; assumption ].
    assert (Hidle : finiteGesture (mkDrawingState false None None))
      by (split; intros ? H; discriminate).
    destruct Hg as (_ & Hgr). destruct (Hgr _ Ec) as (H1 & H2 & H3 & H4).
    destruct (finite_is_Fin _ H1) as (p1 & E1), (finite_is_Fin _ H2) as (q1 & E2),
      (finite_is_Fin _ H3) as (p2 & E3), (finite_is_Fin _ H4) as (q2 & E4).
    rewrite E1, E2, E3, E4.
    destruct (rounded_span p1 p2) as (x & w & mx & Ex & Ew & _).
    destruct (rounded_span q1 q2) as (y & h & my & Ey & Eh & _).
    unfold getTopLeftCoordinates. cbv zeta. cbn [Coords.x Coords.y Coords.width Coords.height].
    rewrite Ex, Ey, Ew, Eh.
    destruct (Num.of_Z w > Num.of_Z 5)%js eqn:Hw; [ | split; assumption ].
    destruct (Num.of_Z h > Num.of_Z 5)%js eqn:Hh; [ | split; assumption ].
    cbn [andb]. split; [ exact Hidle | ]. cbn.
    apply Forall_app. split; [ exact Hr | ].
    constructor; [ | constructor ].
    exists x, y, w, h. cbn.
    repeat split; try reflexivity; apply gt_5_at_least_6; assumption.
  - split; [ | exact Hr ]. destruct Hg as (Hgs & _). split; cbn.
    + exact Hgs.
    + intros cr H. discriminate.
  - split; [ exact Hg | ]. cbn. apply Forall_filter_keep, Hr.
  - split; [ exact Hg | ]. cbn. apply Forall_filter_keep, Hr.
Qed.

Lemma run_keeps_finite (evs : list event) : forall s : State, inv s -> inv (run s evs).
Proof.
  induction evs as [ | ev evs IH ]; intros s H; [ exact H | ].
  rewrite run_cons_ds. apply IH, step_keeps_finite, H.
Qed.

End DocuSignFinite.


(** The plain selector has no such guarantee: a press on a canvas that is
    not laid out records an infinite start corner, and the rectangle saved
    later has an infinite width and height. *)
Example plain_selector_saves_infinite_rectangle :
  RegionApp.rectangles
    (RegionApp.run (RegionApp.loaded 1)
       [RegionApp.MouseDown (Some Scenario.canvasNotLaidOut) (Scenario.pointerAt 10 10);
        RegionApp.MouseMove (Some Scenario.canvas800) (Scenario.pointerAt 60 60);
        RegionApp.MouseUp (Some Scenario.canvas800) (Scenario.pointerAt 60 60) 1000])
  = [RegionApp.Region.mk (Num.of_Z 60) (Num.of_Z 60) PosInf PosInf 1 1000].
Proof. reflexivity. Qed.

(** The clamped vertical coordinate: finite means not negative. *)
Lemma max_zero_finite (a : number) :
  Num.isFinite (Math.max (Num.of_Z 0) a) = true ->
  exists q : Q, Math.max (Num.of_Z 0) a = Fin q /\ (0 <= q)%Q.
Proof.
  destruct a as [p | | | ]; try discriminate.
  - intros _. unfold Math.max, Num.of_Z, Num.lt.
    destruct (Qle_bool p (inject_Z 0)) eqn:E; cbn [negb].
    + exists (inject_Z 0). split; [ reflexivity | ]. apply Qle_refl.
    + exists p. split; [ reflexivity | ]. apply Qlt_le_weak, Qle_bool_false, E.
  - intros _. exists (inject_Z 0). split; [ reflexivity | ]. apply Qle_refl.
Qed.

Lemma offset_position (c : option Canvas.t) (e : MouseEvent.t) (pos : Pos.t) :
  SignaturePointApp.getCanvasCoordinates c e = Some pos ->
  exists p q : Q, pos = Pos.mk (Fin p) (Fin q) /\ (0 <= q)%Q.
Proof.
  unfold SignaturePointApp.getCanvasCoordinates.
  destruct c as [canvas | ]; [ | discriminate ]. cbv zeta.
  destruct (_ || _); [ discriminate | ].
  destruct (_ || _); [ discriminate | ].
  match goal with
  | |- context [negb (Num.isFinite ?a) || negb (Num.isFinite ?b)] =>
      set (x := a); set (y := b);
      destruct (Num.isFinite x) eqn:Ea; [ | discriminate ];
      destruct (Num.isFinite y) eqn:Eb; [ | discriminate ]
  end.
  intros H. cbv [negb orb] in H.
  assert (E : pos = Pos.mk x y) by congruence.
  destruct (finite_is_Fin _ Ea) as (p & Ex).
  destruct (max_zero_finite _ Eb) as (q & Ey & Hq).
  exists p, q. split; [ | exact Hq ].
  rewrite E. f_equal; [ exact Ex | exact Ey ].
Qed.

Lemma handleCanvasClick_point (s : SignaturePointApp.State) (c : option Canvas.t)
      (e : MouseEvent.t) (now : Z) :
  SignaturePointApp.handleCanvasClick c e now s = s
  \/ exists pt : SignaturePointApp.SignaturePoint.t,
       SignaturePointApp.signaturePoints (SignaturePointApp.handleCanvasClick c e now s)
       = SignaturePointApp.signaturePoints s ++ [pt]
       /\ integerPoint pt
       /\ SignaturePointApp.SignaturePoint.pageNum pt = SignaturePointApp.currentPage s
       /\ SignaturePointApp.SignaturePoint.id pt = now.
Proof.
  unfold SignaturePointApp.handleCanvasClick.
  destruct (SignaturePointApp.getCanvasCoordinates c e) as [pos | ] eqn:Ep;
    [ right | left; reflexivity ].
  destruct (offset_position _ _ Ep) as (p & q & -> & Hq).
  eexists. split; [ reflexivity | ]. split; [ | split; reflexivity ].
  destruct (pixelsToPoints_value p) as (xp & Exp & Hxp & _).
  destruct (pixelsToPoints_value q) as (yp & Eyp & Hyp & _).
  exists (Qfloor (p + (1 # 2))), (Qfloor (q + (1 # 2))), xp, yp. cbn.
  repeat split; try assumption. apply round_nonneg, Hq.
Qed.



(** ** The sizes PDFViewer reports *)

Lemma max_one_of_Z (z : Z) :
  Math.max (Num.of_Z 1) (Num.of_Z z) = Num.of_Z (Z.max 1 z).
Proof. apply max_of_Z. Qed.



(** ** The sidebar counts *)

Lemma filter_partition_length {A : Type} (f : A -> bool) (l : list A) :
  (length (filter (fun a => negb (f a)) l) + length (filter f l) = length l)%nat.
Proof.
  induction l as [ | a l IH ]; [ reflexivity | ].
  cbn [filter]. destruct (f a); cbn [negb length]; lia.
Qed.

(** X17: Clear Page removes as many rectangles as the sidebar lists for the
    current page: the rectangles left plus the ones listed on the current
    page before are all the rectangles there were ("Total all pages" drops
    by "Total on page"), and the page's list is empty afterwards, which is
    when the Clear Page button disappears. *)
Theorem clearPage_counts (s : RegionApp.State) :
  (length (RegionApp.rectangles (RegionApp.handleClearPage s))
   + length (RegionApp.listForPage (RegionApp.currentPage s) (RegionApp.rectangles s))
   = length (RegionApp.rectangles s))%nat
  /\ length (RegionApp.listForPage
               (RegionApp.currentPage (RegionApp.handleClearPage s))
               (RegionApp.rectangles (RegionApp.handleClearPage s))) = 0%nat.
Proof.
  split.
  - apply (filter_partition_length
             (fun r => (RegionApp.Region.pageNum r =? RegionApp.currentPage s)%Z)).
  - cbn [RegionApp.handleClearPage RegionApp.setRectangles RegionApp.currentPage
         RegionApp.rectangles].
    unfold RegionApp.listForPage. rewrite cleared_onPage_same. reflexivity.
Qed.
